(** * Online shopping cart: a shallow embedding of the two console programs

    [online_shopping_cart.cpp] (module [Basic]) and
    [online_shopping_cart_adv.cpp] (module [Adv]) are embedded class by
    class.  C++ [int] is a 32-bit two's complement integer carried by [Z],
    [double] is IEEE binary64 carried by the primitive floats.  A member
    function that may throw, or that both changes its object and returns a
    value, is a state transformer over its object ([method]); a [void]
    member function that cannot throw is a function on its object and a
    [const] one that cannot throw a function from it.  Console and file
    output ([operator<<], [viewCart], [showOrder], [printSummary],
    [saveToFile]) and the classes [User] and [Admin], which only carry
    names, are not part of the model. *)

From Stdlib Require Import ZArith Floats Lia.
From stdpp Require Import base gmap list strings sorting.

Open Scope Z_scope.

(** ** Machine integers and doubles *)

Definition INT_MIN : Z := -2147483648.
Definition INT_MAX : Z := 2147483647.

Definition is_int (z : Z) : Prop := INT_MIN <= z <= INT_MAX.

(** Two's complement wrap-around of an [int] result. *)
Definition wrap_int (z : Z) : Z := (z + 2147483648) mod 4294967296 - 2147483648.

Definition double : Set := float.

(** Conversion [int -> double], exact on the whole [int] range. *)
Definition double_of_int (z : Z) : double :=
  if z <? 0 then PrimFloat.opp (PrimFloat.of_uint63 (Uint63.of_Z (- z)))
  else PrimFloat.of_uint63 (Uint63.of_Z z).

(** ** Exceptions and member functions *)

(** [class ShopException : public runtime_error], the same in both files. *)
Inductive exn : Set := ShopException (msg : string).

Inductive outcome (A : Type) : Type :=
| Returns (a : A)
| Throws (e : exn).
Arguments Returns {A} a.
Arguments Throws {A} e.

(** A member function of a class with state [S] and result [A]. *)
Definition method (S A : Type) : Type := S -> outcome A * S.

Definition ret {S A : Type} (a : A) : method S A := fun this => (Returns a, this).
Definition throw {S A : Type} (e : exn) : method S A := fun this => (Throws e, this).
Definition modify {S : Type} (f : S -> S) : method S unit := fun this => (Returns tt, f this).
Definition bind {S A B : Type} (m : method S A) (k : A -> method S B) : method S B :=
  fun this =>
    match m this with
    | (Returns a, this') => k a this'
    | (Throws e, this') => (Throws e, this')
    end.

Notation "'call' x <- m ;; k" := (bind m (fun x => k))
  (at level 10, x name, m at level 99, k at level 200).

(** [class Payment { virtual bool pay(double amount) = 0; }], the same in
    both files: an object is known by its [pay] entry only. *)
Record Payment : Type := { pay : double -> bool }.

(** [std::string::empty]. *)
Definition empty_string (s : string) : bool :=
  match s with EmptyString => true | String _ _ => false end.

(** ** online_shopping_cart.cpp *)

Module Basic.

Record Product : Set := mkProduct
  { getId : Z; getName : string; getPrice : double; getStock : Z }.

Definition setPrice (p : double) : method Product unit :=
  if PrimFloat.ltb p 0%float then throw (ShopException "Invalid price")
  else modify (fun this => mkProduct (getId this) (getName this) p (getStock this)).

Definition setStock (s : Z) : method Product unit :=
  if s <? 0 then throw (ShopException "Invalid stock")
  else modify (fun this => mkProduct (getId this) (getName this) (getPrice this) s).

Definition reduceStock (qty : Z) : method Product bool :=
  fun this =>
    if qty <=? 0 then (Returns false, this)
    else if qty >? getStock this then (Returns false, this)
    else (Returns true,
          mkProduct (getId this) (getName this) (getPrice this)
                    (wrap_int (getStock this - qty))).

Record CartItem : Set := mkCartItem { product : Product; quantity : Z }.

Definition subtotal (c : CartItem) : double :=
  PrimFloat.mul (getPrice (product c)) (double_of_int (quantity c)).

(** [CardPayment] and [PayPalPayment] have no data members. *)
Definition CardPayment_pay (amount : double) : bool := true.
Definition PayPalPayment_pay (amount : double) : bool := true.

Definition CardPayment : Payment := {| pay := CardPayment_pay |}.
Definition PayPalPayment : Payment := {| pay := PayPalPayment_pay |}.

Record ShoppingCart : Set := mkCart { getItems : list CartItem }.

Definition addItem (p : Product) (q : Z) (this : ShoppingCart) : ShoppingCart :=
  mkCart (getItems this ++ [mkCartItem p q]).

Fixpoint total_loop (t : double) (its : list CartItem) : double :=
  match its with
  | [] => t
  | c :: rest => total_loop (PrimFloat.add t (subtotal c)) rest
  end.

Definition total (this : ShoppingCart) : double := total_loop 0%float (getItems this).
Definition clear (this : ShoppingCart) : ShoppingCart := mkCart [].
Definition empty (this : ShoppingCart) : bool :=
  match getItems this with [] => true | _ :: _ => false end.

Record Order : Set := mkOrder
  { Order_id : Z; Order_items : list CartItem; Order_amount : double }.

(** The constructor [Order(vector<CartItem> its)]: it takes the static
    [orderCounter] and gives the order with the counter after it. *)
Definition new_Order (its : list CartItem) (orderCounter : Z) : Order * Z :=
  let c := wrap_int (orderCounter + 1) in
  (mkOrder c its (total_loop 0%float its), c).

(** *** main *)

Record state : Set := mkState
  { products : list Product; cart : ShoppingCart; orderCounter : Z }.

Definition initial : state :=
  mkState [ mkProduct 1 "Book" 10.5%float 10;
            mkProduct 2 "Pen" 2.5%float 20;
            mkProduct 3 "Laptop" 800%float 5 ]
          (mkCart []) 0.

(** One line of the menu, with the numbers read after it. *)
Inductive choice : Set :=
| ShowProducts
| AddToCart (id q : Z)
| ViewCart
| Checkout (pm : Z)
| Exit.

(** [for(auto &p:products){ if(p.getId()==id && p.reduceStock(q)) cart.addItem(p,q); }] *)
Fixpoint add_loop (id q : Z) (ps : list Product) (c : ShoppingCart)
  : list Product * ShoppingCart :=
  match ps with
  | [] => ([], c)
  | p :: rest =>
      if getId p =? id then
        match reduceStock q p with
        | (Returns true, p') =>
            let (rest', c') := add_loop id q rest (addItem p' q c) in (p' :: rest', c')
        | (_, p') =>
            let (rest', c') := add_loop id q rest c in (p' :: rest', c')
        end
      else
        let (rest', c') := add_loop id q rest c in (p :: rest', c')
  end.

(** The body of [choice==4] for the payment object [p]. *)
Definition checkout (p : Payment) (st : state) : state * option Order :=
  if empty (cart st) then (st, None)
  else if pay p (total (cart st)) then
    let (o, counter) := new_Order (getItems (cart st)) (orderCounter st) in
    (mkState (products st) (clear (cart st)) counter, Some o)
  else (st, None).

Section Loop.

(** How the number read at [1.Card 2.PayPal] becomes a payment object. *)
Variable select : Z -> Payment.

(** One turn of [while(true)]: [None] is [break]. *)
Definition iteration (c : choice) (st : state) : option (state * option Order) :=
  match c with
  | ShowProducts => Some (st, None)
  | AddToCart id q =>
      let (ps, c') := add_loop id q (products st) (cart st) in
      Some (mkState ps c' (orderCounter st), None)
  | ViewCart => Some (st, None)
  | Checkout pm => Some (checkout (select pm) st)
  | Exit => None
  end.

(** The loop over what is typed, with the orders it constructs, oldest first. *)
Fixpoint main_loop (inputs : list choice) (st : state) : state * list Order :=
  match inputs with
  | [] => (st, [])
  | c :: rest =>
      match iteration c st with
      | None => (st, [])
      | Some (st', o) =>
          let (st'', os) := main_loop rest st' in
          (st'', match o with Some x => x :: os | None => os end)
      end
  end.

End Loop.

Definition select_payment (pm : Z) : Payment :=
  if pm =? 1 then CardPayment else PayPalPayment.

Definition main (inputs : list choice) : state * list Order :=
  main_loop select_payment inputs initial.

End Basic.

(** ** online_shopping_cart_adv.cpp *)

Module Adv.

Record Product : Set := mkProduct
  { getId : Z; getName : string; getPrice : double; getStock : Z }.

Definition setPrice (p : double) : method Product unit :=
  if PrimFloat.ltb p 0%float then throw (ShopException "Price can't be negative")
  else modify (fun this => mkProduct (getId this) (getName this) p (getStock this)).

Definition setStock (s : Z) : method Product unit :=
  if s <? 0 then throw (ShopException "Stock can't be negative")
  else modify (fun this => mkProduct (getId this) (getName this) (getPrice this) s).

Definition reduceStock (qty : Z) : method Product bool :=
  fun this =>
    if qty <=? 0 then (Returns false, this)
    else if qty >? getStock this then (Returns false, this)
    else (Returns true,
          mkProduct (getId this) (getName this) (getPrice this)
                    (wrap_int (getStock this - qty))).

Definition increaseStock (qty : Z) (this : Product) : Product :=
  if qty >? 0
  then mkProduct (getId this) (getName this) (getPrice this) (wrap_int (getStock this + qty))
  else this.

(** [Product::operator==]. *)
Definition Product_eq (this other : Product) : bool := getId this =? getId other.

Record CartItem : Set := mkCartItem { product : Product; quantity : Z }.

Definition subtotal (c : CartItem) : double :=
  PrimFloat.mul (getPrice (product c)) (double_of_int (quantity c)).

Record CreditCardPayment : Set := mkCreditCardPayment
  { cardNumber : string; nameOnCard : string }.

Definition CreditCardPayment_pay (this : CreditCardPayment) (amount : double) : bool :=
  if empty_string (cardNumber this) then false else true.

Record PayPalPayment : Set := mkPayPalPayment { accountEmail : string }.

Definition PayPalPayment_pay (this : PayPalPayment) (amount : double) : bool :=
  if empty_string (accountEmail this) then false else true.

(** The two derived classes seen through the base class. *)
Definition CreditCardPayment_upcast (this : CreditCardPayment) : Payment :=
  {| pay := CreditCardPayment_pay this |}.
Definition PayPalPayment_upcast (this : PayPalPayment) : Payment :=
  {| pay := PayPalPayment_pay this |}.

(** *** Inventory

    [unordered_map<int, Product> products] is a finite map; the order in
    which a range-for visits it is not fixed by the container, so the
    functions that iterate take the visiting order as an argument. *)

Record Inventory : Type := mkInventory { products : gmap Z Product }.

Definition addProduct (p : Product) (this : Inventory) : Inventory :=
  mkInventory (<[getId p := p]> (products this)).

Definition hasProduct (id : Z) (this : Inventory) : bool :=
  match products this !! id with Some _ => true | None => false end.

Definition getProduct (id : Z) : method Inventory Product :=
  fun this =>
    match products this !! id with
    | None => (Throws (ShopException "Product not found"), this)
    | Some p => (Returns p, this)
    end.

Definition Inventory_reduceStock (id qty : Z) : method Inventory bool :=
  fun this =>
    match products this !! id with
    | None => (Returns false, this)
    | Some p =>
        let (r, p') := reduceStock qty p in
        (r, mkInventory (<[id := p']> (products this)))
    end.

(** A visiting order of the map: every entry once. *)
Definition visits (m : gmap Z Product) (kvs : list (Z * Product)) : Prop :=
  kvs ≡ₚ map_to_list m.

(** [std::sort] with comparator [comp], as a sort by insertion. *)
Fixpoint sort_insert {A : Type} (comp : A -> A -> bool) (x : A) (l : list A) : list A :=
  match l with
  | [] => [x]
  | y :: rest => if comp x y then x :: y :: rest else y :: sort_insert comp x rest
  end.

Fixpoint std_sort {A : Type} (comp : A -> A -> bool) (l : list A) : list A :=
  match l with
  | [] => []
  | x :: rest => sort_insert comp x (std_sort comp rest)
  end.

(** The lambda given to [sort] in [listAll]. *)
Definition by_id (a b : Product) : bool := getId a <? getId b.

(** The body of [listAll] when the range-for visits [kvs]. *)
Definition listAll_visiting (kvs : list (Z * Product)) : list Product :=
  let out := fold_left (fun out kv => out ++ [snd kv]) kvs [] in
  std_sort by_id out.

Definition listAll (this : Inventory) : list Product :=
  listAll_visiting (map_to_list (products this)).

(** *** ShoppingCart *)

Record ShoppingCart : Set := mkCart { getItems : list CartItem }.

Definition addToCart (p : Product) (qty : Z) (this : ShoppingCart) : ShoppingCart :=
  mkCart (getItems this ++ [mkCartItem p qty]).

Definition removeFromCart (productId qty : Z) (this : ShoppingCart) : ShoppingCart := this.

Fixpoint total_loop (sum : double) (its : list CartItem) : double :=
  match its with
  | [] => sum
  | ci :: rest => total_loop (PrimFloat.add sum (subtotal ci)) rest
  end.

Definition total (this : ShoppingCart) : double := total_loop 0%float (getItems this).
Definition clear (this : ShoppingCart) : ShoppingCart := mkCart [].
Definition empty (this : ShoppingCart) : bool :=
  match getItems this with [] => true | _ :: _ => false end.

(** *** Order *)

Record Order : Set := mkOrder
  { orderId : Z; items : list CartItem; amount : double }.

(** The constructor: it takes the static [nextOrderId] and gives the order
    with the counter after it. *)
Definition new_Order (its : list CartItem) (nextOrderId : Z) : Order * Z :=
  let i := wrap_int (nextOrderId + 1) in
  (mkOrder i its (total_loop 0%float its), i).

(** *** main *)

(** What [main] works on: the singleton, its local cart and the static counter. *)
Record world : Type := mkWorld
  { inv : Inventory; cart : ShoppingCart; nextOrderId : Z }.

Definition on_inv {A : Type} (m : method Inventory A) : method world A :=
  fun w => let (r, i) := m (inv w) in (r, mkWorld i (cart w) (nextOrderId w)).

Definition on_cart (f : ShoppingCart -> ShoppingCart) : method world unit :=
  modify (fun w => mkWorld (inv w) (f (cart w)) (nextOrderId w)).

Definition on_counter {A : Type} (f : Z -> A * Z) : method world A :=
  fun w => let (a, n) := f (nextOrderId w) in (Returns a, mkWorld (inv w) (cart w) n).

Definition start : world := mkWorld (mkInventory ∅) (mkCart []) 0.

(** The statements of [main] that change or read the state; the listing
    and the total that are only printed are left out. *)
Definition main : method world (option Order) :=
  call _ <- on_inv (modify (addProduct (mkProduct 1 "Mouse" 15%float 10))) ;;
  call _ <- on_inv (modify (addProduct (mkProduct 2 "Keyboard" 25%float 5))) ;;
  call p <- on_inv (getProduct 1) ;;
  call _ <- on_cart (addToCart p 2) ;;
  fun w =>
    let payment :=
      CreditCardPayment_upcast (mkCreditCardPayment "1234" "Alice") in
    if pay payment (total (cart w))
    then (call o <- on_counter (new_Order (getItems (cart w))) ;; ret (Some o)) w
    else ret None w.

End Adv.

(** * Vocabulary of the properties *)

(** The four classes derived from [Payment] in the two files. *)
Inductive variant : Set :=
| BasicCard
| BasicPayPal
| AdvCreditCard (c : Adv.CreditCardPayment)
| AdvPayPal (c : Adv.PayPalPayment).

Definition object (v : variant) : Payment :=
  match v with
  | BasicCard => Basic.CardPayment
  | BasicPayPal => Basic.PayPalPayment
  | AdvCreditCard c => Adv.CreditCardPayment_upcast c
  | AdvPayPal c => Adv.PayPalPayment_upcast c
  end.

(** The data member that identifies the account, where the class has one. *)
Definition account_identifier (v : variant) : option string :=
  match v with
  | BasicCard | BasicPayPal => None
  | AdvCreditCard c => Some (Adv.cardNumber c)
  | AdvPayPal c => Some (Adv.accountEmail c)
  end.

Definition missing_or_empty (o : option string) : bool :=
  match o with
  | None => true
  | Some s => empty_string s
  end.

Definition positive_quantities (its : list Basic.CartItem) : Prop :=
  Forall (fun ci => 0 < Basic.quantity ci) its.

(** Units still on the shelf. *)
Definition stock_sum (ps : list Basic.Product) : Z :=
  foldr (fun p s => Basic.getStock p + s) 0 ps.

Definition stocks_ok (ps : list Basic.Product) : Prop :=
  Forall (fun p => 0 <= Basic.getStock p <= INT_MAX) ps.

(** One more order can come out of a cart that is not empty. *)
Definition pending (c : Basic.ShoppingCart) : Z :=
  if Basic.empty c then 0 else 1.

(** Orders made, units on the shelf and the pending cart never exceed the
    35 units [main] starts with. *)
Definition within_budget (st : Basic.state) : Prop :=
  stocks_ok (Basic.products st)
  /\ 0 <= Basic.orderCounter st
  /\ Basic.orderCounter st + stock_sum (Basic.products st) + pending (Basic.cart st) <= 35.

(** What a client can call on a cart of the advanced program. *)
Inductive cart_call : Set :=
| Call_addToCart (p : Adv.Product) (qty : Z)
| Call_removeFromCart (productId qty : Z)
| Call_clear.

Definition do_call (c : cart_call) (this : Adv.ShoppingCart) : Adv.ShoppingCart :=
  match c with
  | Call_addToCart p qty => Adv.addToCart p qty this
  | Call_removeFromCart productId qty => Adv.removeFromCart productId qty this
  | Call_clear => Adv.clear this
  end.

Definition do_calls (cs : list cart_call) (this : Adv.ShoppingCart) : Adv.ShoppingCart :=
  fold_left (fun c k => do_call k c) cs this.

Definition adds_positive (c : cart_call) : Prop :=
  match c with
  | Call_addToCart _ qty => 0 < qty
  | _ => True
  end.

Definition adv_positive_quantities (its : list Adv.CartItem) : Prop :=
  Forall (fun ci => 0 < Adv.quantity ci) its.

(** A caller that keeps a product in a variable of its own and a cart:
    [cart.addToCart(original, qty)] and member calls on [original]. *)
Record client : Set := mkClient { original : Adv.Product; held : Adv.ShoppingCart }.

Definition add_original (qty : Z) (cl : client) : client :=
  mkClient (original cl) (Adv.addToCart (original cl) qty (held cl)).

Definition on_original {B : Type} (m : method Adv.Product B) : method client B :=
  fun cl => let (r, p) := m (original cl) in (r, mkClient p (held cl)).

Definition le_id (a b : Adv.Product) : Prop := Adv.getId a <= Adv.getId b.
Definition lt_id (a b : Adv.Product) : Prop := Adv.getId a < Adv.getId b.

(** Every product sits under its own id. *)
Definition keyed_by_id (m : gmap Z Adv.Product) : Prop :=
  forall (k : Z) (p : Adv.Product), m !! k = Some p -> Adv.getId p = k.

(** The inventory after [addProduct] was called on [ps], first to last. *)
Definition filled (ps : list Adv.Product) : Adv.Inventory :=
  fold_left (fun i p => Adv.addProduct p i) ps (Adv.mkInventory ∅).

(** ** Vocabulary of the further properties *)

(** A series of [reduceStock(id, qty)] calls on the inventory, first to
    last: the calls that returned [true], and the inventory after the last. *)
Fixpoint reduce_calls (calls : list (Z * Z)) (this : Adv.Inventory)
  : list (Z * Z) * Adv.Inventory :=
  match calls with
  | [] => ([], this)
  | (id, qty) :: rest =>
      let (r, this') := Adv.Inventory_reduceStock id qty this in
      let (accepted, final) := reduce_calls rest this' in
      (match r with
       | Returns true => (id, qty) :: accepted
       | _ => accepted
       end, final)
  end.

(** The units the calls ask of the product [id]. *)
Definition units_of (id : Z) (calls : list (Z * Z)) : Z :=
  foldr (fun c s => if fst c =? id then snd c + s else s) 0 calls.

(** Orders constructed one after the other in the advanced program, from
    the given item vectors, with the counter after the last. *)
Fixpoint make_orders (carts : list (list Adv.CartItem)) (nextOrderId : Z)
  : list Adv.Order * Z :=
  match carts with
  | [] => ([], nextOrderId)
  | its :: rest =>
      let (o, n) := Adv.new_Order its nextOrderId in
      let (os, final) := make_orders rest n in
      (o :: os, final)
  end.

(** Units held by the items of a cart, and by the orders made. *)
Definition cart_units (its : list Basic.CartItem) : Z :=
  foldr (fun ci s => Basic.quantity ci + s) 0 its.

Definition ordered_units (os : list Basic.Order) : Z :=
  foldr (fun o s => cart_units (Basic.Order_items o) + s) 0 os.

(** [p] is [p0] but for a stock that went down and not below 0. *)
Definition same_but_stock (p0 p : Basic.Product) : Prop :=
  Basic.getId p = Basic.getId p0
  /\ Basic.getName p = Basic.getName p0
  /\ Basic.getPrice p = Basic.getPrice p0
  /\ 0 <= Basic.getStock p <= Basic.getStock p0.

(** An order as a checkout makes it: some items, none of quantity 0 or
    less, and their total as amount. *)
Definition well_formed_order (o : Basic.Order) : Prop :=
  Basic.Order_items o <> []
  /\ positive_quantities (Basic.Order_items o)
  /\ Basic.Order_amount o = Basic.total (Basic.mkCart (Basic.Order_items o)).

(** * Properties *)

(** ** Arithmetic on [int] and comparisons on [double] *)

Lemma wrap_int_id (z : Z) : is_int z -> wrap_int z = z.
Proof.
  unfold is_int, INT_MIN, INT_MAX, wrap_int. intros Hz.
  rewrite Z.mod_small; lia.
Qed.

Lemma not_negative_of_nonnegative (p : double) :
  PrimFloat.leb 0%float p = true -> PrimFloat.ltb p 0%float = false.
Proof.
  rewrite leb_spec, ltb_spec. unfold SFleb, SFltb.
  change (Prim2SF 0%float) with (S754_zero false).
  destruct (Prim2SF p) as [s | s | | s m e]; simpl;
    try destruct s; simpl; congruence.
Qed.

Example double_of_int_samples :
  double_of_int 3 = 3%float /\ double_of_int (-2) = (-2)%float
  /\ double_of_int INT_MAX = 2147483647%float
  /\ double_of_int INT_MIN = (-2147483648)%float.
Proof. vm_compute. repeat split. Qed.

(** ** Product *)

Lemma basic_reduceStock_ok (this : Basic.Product) (qty : Z) :
  is_int (Basic.getStock this) -> 0 < qty <= Basic.getStock this ->
  Basic.reduceStock qty this =
    (Returns true,
     Basic.mkProduct (Basic.getId this) (Basic.getName this) (Basic.getPrice this)
                     (Basic.getStock this - qty)).
Proof.
  intros Hs Hq. unfold Basic.reduceStock.
  destruct (Z.leb_spec qty 0); [lia |].
  destruct (Z.gtb_spec qty (Basic.getStock this)); [lia |].
  rewrite wrap_int_id; [reflexivity |].
  unfold is_int, INT_MIN, INT_MAX in *. lia.
Qed.

Lemma basic_reduceStock_refused (this : Basic.Product) (qty : Z) :
  qty <= 0 \/ qty > Basic.getStock this ->
  Basic.reduceStock qty this = (Returns false, this).
Proof.
  intros Hq. unfold Basic.reduceStock.
  destruct (Z.leb_spec qty 0); [reflexivity |].
  destruct (Z.gtb_spec qty (Basic.getStock this)); [reflexivity | lia].
Qed.

Lemma adv_reduceStock_ok (this : Adv.Product) (qty : Z) :
  is_int (Adv.getStock this) -> 0 < qty <= Adv.getStock this ->
  Adv.reduceStock qty this =
    (Returns true,
     Adv.mkProduct (Adv.getId this) (Adv.getName this) (Adv.getPrice this)
                   (Adv.getStock this - qty)).
Proof.
  intros Hs Hq. unfold Adv.reduceStock.
  destruct (Z.leb_spec qty 0); [lia |].
  destruct (Z.gtb_spec qty (Adv.getStock this)); [lia |].
  rewrite wrap_int_id; [reflexivity |].
  unfold is_int, INT_MIN, INT_MAX in *. lia.
Qed.

Lemma adv_reduceStock_refused (this : Adv.Product) (qty : Z) :
  qty <= 0 \/ qty > Adv.getStock this ->
  Adv.reduceStock qty this = (Returns false, this).
Proof.
  intros Hq. unfold Adv.reduceStock.
  destruct (Z.leb_spec qty 0); [reflexivity |].
  destruct (Z.gtb_spec qty (Adv.getStock this)); [reflexivity | lia].
Qed.

(** C1: in both files, for every product whose stock is an [int] and every
    [qty], [reduceStock(qty)] returns [true] and leaves the product with
    stock decreased by exactly [qty] (all other members as they were) when
    [0 < qty <= stock]; when [qty <= 0] or [qty > stock] it returns [false]
    and leaves the product as it was.  It returns in every case: no
    exception is thrown. *)
Theorem reduceStock_contract (b : Basic.Product) (a : Adv.Product) (qty : Z) :
  is_int (Basic.getStock b) ->
  is_int (Adv.getStock a) ->
  (0 < qty <= Basic.getStock b ->
   Basic.reduceStock qty b =
     (Returns true,
      Basic.mkProduct (Basic.getId b) (Basic.getName b) (Basic.getPrice b)
                      (Basic.getStock b - qty)))
  /\ (qty <= 0 \/ qty > Basic.getStock b ->
      Basic.reduceStock qty b = (Returns false, b))
  /\ (0 < qty <= Adv.getStock a ->
      Adv.reduceStock qty a =
        (Returns true,
         Adv.mkProduct (Adv.getId a) (Adv.getName a) (Adv.getPrice a)
                       (Adv.getStock a - qty)))
  /\ (qty <= 0 \/ qty > Adv.getStock a ->
      Adv.reduceStock qty a = (Returns false, a)).
Proof.
  intros Hb Ha. repeat split.
  - now apply basic_reduceStock_ok.
  - apply basic_reduceStock_refused.
  - now apply adv_reduceStock_ok.
  - apply adv_reduceStock_refused.
Qed.

(** The scenario of the specification: a book in stock 10 times, 3 taken. *)
Lemma reduceStock_contract_witness :
  Basic.reduceStock 3 (Basic.mkProduct 1 "Book" 10.5%float 10)
    = (Returns true, Basic.mkProduct 1 "Book" 10.5%float 7)
  /\ Adv.reduceStock 11 (Adv.mkProduct 1 "Mouse" 15%float 10)
    = (Returns false, Adv.mkProduct 1 "Mouse" 15%float 10).
Proof.
  pose proof (reduceStock_contract
                (Basic.mkProduct 1 "Book" 10.5%float 10)
                (Adv.mkProduct 1 "Mouse" 15%float 10) 3) as H3.
  pose proof (reduceStock_contract
                (Basic.mkProduct 1 "Book" 10.5%float 10)
                (Adv.mkProduct 1 "Mouse" 15%float 10) 11) as H11.
  split.
  - apply H3; unfold is_int, INT_MIN, INT_MAX; simpl; lia.
  - apply H11; unfold is_int, INT_MIN, INT_MAX; simpl; lia.
Defined.

(** C7: in both files [setPrice(p)] with [p < 0] and [setStock(s)] with
    [s < 0] throw a [ShopException] and leave the product as it was; with
    [0 <= p], respectively [0 <= s], they return and the member holds the
    argument, the other members as they were. *)
Theorem setters_validate (b : Basic.Product) (a : Adv.Product) (p : double) (s : Z) :
  (PrimFloat.ltb p 0%float = true ->
     Basic.setPrice p b = (Throws (ShopException "Invalid price"), b)
     /\ Adv.setPrice p a = (Throws (ShopException "Price can't be negative"), a))
  /\ (PrimFloat.leb 0%float p = true ->
     Basic.setPrice p b =
       (Returns tt, Basic.mkProduct (Basic.getId b) (Basic.getName b) p (Basic.getStock b))
     /\ Adv.setPrice p a =
       (Returns tt, Adv.mkProduct (Adv.getId a) (Adv.getName a) p (Adv.getStock a)))
  /\ (s < 0 ->
     Basic.setStock s b = (Throws (ShopException "Invalid stock"), b)
     /\ Adv.setStock s a = (Throws (ShopException "Stock can't be negative"), a))
  /\ (0 <= s ->
     Basic.setStock s b =
       (Returns tt, Basic.mkProduct (Basic.getId b) (Basic.getName b) (Basic.getPrice b) s)
     /\ Adv.setStock s a =
       (Returns tt, Adv.mkProduct (Adv.getId a) (Adv.getName a) (Adv.getPrice a) s)).
Proof.
  unfold Basic.setPrice, Adv.setPrice, Basic.setStock, Adv.setStock.
  split; [ | split; [ | split]].
  - intros Hneg. rewrite Hneg. split; reflexivity.
  - intros Hpos. rewrite (not_negative_of_nonnegative p Hpos). split; reflexivity.
  - intros Hs. destruct (Z.ltb_spec s 0); [split; reflexivity | lia].
  - intros Hs. destruct (Z.ltb_spec s 0); [lia | split; reflexivity].
Qed.

(** [setPrice(-1)], [setStock(-1)], [setPrice(12.0)] and [setStock(4)] on
    the seeded book and mouse. *)
Lemma setters_validate_witness :
  let book := Basic.mkProduct 1 "Book" 10.5%float 10 in
  let mouse := Adv.mkProduct 1 "Mouse" 15%float 10 in
  (Basic.setPrice (-1)%float book = (Throws (ShopException "Invalid price"), book)
   /\ Adv.setPrice (-1)%float mouse
      = (Throws (ShopException "Price can't be negative"), mouse))
  /\ (Basic.setStock (-1) book = (Throws (ShopException "Invalid stock"), book)
      /\ Adv.setStock (-1) mouse
         = (Throws (ShopException "Stock can't be negative"), mouse))
  /\ (Basic.setPrice 12%float book = (Returns tt, Basic.mkProduct 1 "Book" 12%float 10)
      /\ Adv.setPrice 12%float mouse = (Returns tt, Adv.mkProduct 1 "Mouse" 12%float 10))
  /\ (Basic.setStock 4 book = (Returns tt, Basic.mkProduct 1 "Book" 10.5%float 4)
      /\ Adv.setStock 4 mouse = (Returns tt, Adv.mkProduct 1 "Mouse" 15%float 4)).
Proof.
  intros book mouse.
  split; [ | split; [ | split]].
  - apply (setters_validate book mouse (-1)%float (-1)). vm_compute. reflexivity.
  - apply (setters_validate book mouse (-1)%float (-1)). lia.
  - apply (setters_validate book mouse 12%float 4). vm_compute. reflexivity.
  - apply (setters_validate book mouse 12%float 4). lia.
Defined.

(** ** Payment *)

(** C5, as claimed, fails: the card payment of the basic program holds no
    card number at all and still reports success. *)
Lemma pay_without_identifier :
  missing_or_empty (account_identifier BasicCard) = true
  /\ pay (object BasicCard) 31.5%float = true.
Proof. split; reflexivity. Qed.

(** C5, amended: for every amount, [CreditCardPayment::pay] and
    [PayPalPayment::pay] of the advanced program return [false] exactly
    when the card number, respectively the account email, is the empty
    string, and [true] otherwise; [CardPayment::pay] and
    [PayPalPayment::pay] of the basic program, which hold no identifier,
    return [true] for every amount. *)
Theorem pay_by_variant (v : variant) (amount : double) :
  match v with
  | BasicCard | BasicPayPal => pay (object v) amount = true
  | AdvCreditCard c =>
      (Adv.cardNumber c = EmptyString -> pay (object v) amount = false)
      /\ (Adv.cardNumber c <> EmptyString -> pay (object v) amount = true)
  | AdvPayPal c =>
      (Adv.accountEmail c = EmptyString -> pay (object v) amount = false)
      /\ (Adv.accountEmail c <> EmptyString -> pay (object v) amount = true)
  end.
Proof.
  destruct v as [ | | [card holder] | [email]]; simpl; try reflexivity.
  - unfold Adv.CreditCardPayment_pay. simpl.
    destruct card; simpl; split; congruence.
  - unfold Adv.PayPalPayment_pay. simpl.
    destruct email; simpl; split; congruence.
Qed.

Lemma pay_by_variant_witness :
  pay (object (AdvCreditCard (Adv.mkCreditCardPayment EmptyString "Alice"))) 30%float
  = false
  /\ pay (object (AdvPayPal (Adv.mkPayPalPayment "alice@mail.com"))) 30%float = true.
Proof.
  split.
  - apply (pay_by_variant
             (AdvCreditCard (Adv.mkCreditCardPayment EmptyString "Alice")) 30%float).
    reflexivity.
  - apply (pay_by_variant
             (AdvPayPal (Adv.mkPayPalPayment "alice@mail.com")) 30%float).
    discriminate.
Defined.

(** ** Inventory lookup *)

(** C8: [Inventory::getProduct(id)] throws [ShopException("Product not
    found")] exactly when the map holds nothing at [id]; it returns [p]
    exactly when the map holds [p] at [id]; in both cases the inventory is
    afterwards what it was. *)
Theorem getProduct_contract (this : Adv.Inventory) (id : Z) :
  (Adv.products this !! id = None
   <-> exists e, fst (Adv.getProduct id this) = Throws e)
  /\ (Adv.products this !! id = None
      -> fst (Adv.getProduct id this) = Throws (ShopException "Product not found"))
  /\ (forall p : Adv.Product,
        Adv.products this !! id = Some p
        <-> fst (Adv.getProduct id this) = Returns p)
  /\ snd (Adv.getProduct id this) = this.
Proof.
  unfold Adv.getProduct.
  destruct (Adv.products this !! id) as [q | ] eqn:Hq; simpl.
  - repeat split; try congruence.
    intros [e He]. discriminate.
  - repeat split; try congruence.
    intros _. eexists. reflexivity.
Qed.

Lemma getProduct_contract_witness :
  fst (Adv.getProduct 7 (Adv.addProduct (Adv.mkProduct 1 "Mouse" 15%float 10)
                                       (Adv.mkInventory ∅)))
  = Throws (ShopException "Product not found").
Proof.
  apply getProduct_contract. vm_compute. reflexivity.
Defined.

(** What was added under an id is what [getProduct] gives back. *)
Lemma getProduct_addProduct (p : Adv.Product) (this : Adv.Inventory) :
  Adv.getProduct (Adv.getId p) (Adv.addProduct p this)
  = (Returns p, Adv.addProduct p this).
Proof.
  unfold Adv.getProduct, Adv.addProduct. simpl.
  rewrite lookup_insert_eq. reflexivity.
Qed.

(** ** The cart of the advanced program *)

(** C10: [removeFromCart(productId, qty)] leaves the cart as it was, so
    [total()], [getItems()] and [empty()] give the same values after it as
    before. *)
Theorem removeFromCart_noop (this : Adv.ShoppingCart) (productId qty : Z) :
  Adv.removeFromCart productId qty this = this
  /\ Adv.total (Adv.removeFromCart productId qty this) = Adv.total this
  /\ Adv.getItems (Adv.removeFromCart productId qty this) = Adv.getItems this
  /\ Adv.empty (Adv.removeFromCart productId qty this) = Adv.empty this.
Proof. unfold Adv.removeFromCart. repeat split. Qed.

(** ** Checkout in the basic program *)

Lemma basic_empty_iff (c : Basic.ShoppingCart) :
  Basic.empty c = true <-> Basic.getItems c = [].
Proof. unfold Basic.empty. destruct (Basic.getItems c); split; congruence. Qed.

(** C2: the checkout branch of [main], for any payment object.  On an empty
    cart nothing changes and no order is constructed.  When the cart is not
    empty and [pay(cart.total())] returns [false], nothing changes either:
    the items stay in the cart, the products keep their stock, no order is
    constructed.  An order is constructed only when the cart is not empty
    and the payment succeeded, the cart changes only in that case, and then
    the order holds the items of the cart and the cart is cleared. *)
Theorem checkout_guarded (p : Payment) (st : Basic.state) :
  (Basic.empty (Basic.cart st) = true -> Basic.checkout p st = (st, None))
  /\ (Basic.empty (Basic.cart st) = false ->
      pay p (Basic.total (Basic.cart st)) = false ->
      Basic.checkout p st = (st, None))
  /\ (forall o, snd (Basic.checkout p st) = Some o ->
        Basic.empty (Basic.cart st) = false
        /\ pay p (Basic.total (Basic.cart st)) = true)
  /\ (Basic.cart (fst (Basic.checkout p st)) <> Basic.cart st ->
        Basic.empty (Basic.cart st) = false
        /\ pay p (Basic.total (Basic.cart st)) = true)
  /\ (Basic.empty (Basic.cart st) = false ->
      pay p (Basic.total (Basic.cart st)) = true ->
      Basic.checkout p st
      = (Basic.mkState (Basic.products st) (Basic.mkCart [])
                       (wrap_int (Basic.orderCounter st + 1)),
         Some (Basic.mkOrder (wrap_int (Basic.orderCounter st + 1))
                             (Basic.getItems (Basic.cart st))
                             (Basic.total (Basic.cart st))))).
Proof.
  unfold Basic.checkout, Basic.new_Order, Basic.clear.
  destruct (Basic.empty (Basic.cart st)) eqn:He;
    destruct (pay p (Basic.total (Basic.cart st))) eqn:Hp; simpl;
    repeat split; congruence.
Qed.

(** A payment that is declined (no card number) leaves a cart of three
    books, the stock already taken and the counter as they were; with an
    empty cart nothing happens; a card payment makes order 1 of 31.5 and
    clears the cart. *)
Lemma checkout_guarded_witness :
  let declined := Adv.CreditCardPayment_upcast (Adv.mkCreditCardPayment EmptyString "Alice") in
  let book := Basic.mkProduct 1 "Book" 10.5%float 7 in
  let st := Basic.mkState [book] (Basic.mkCart [Basic.mkCartItem book 3]) 0 in
  let st0 := Basic.mkState [book] (Basic.mkCart []) 0 in
  Basic.checkout declined st = (st, None)
  /\ Basic.checkout Basic.CardPayment st0 = (st0, None)
  /\ Basic.checkout Basic.CardPayment st
     = (Basic.mkState [book] (Basic.mkCart []) 1,
        Some (Basic.mkOrder 1 [Basic.mkCartItem book 3] 31.5%float)).
Proof.
  intros declined book st st0.
  split; [ | split].
  - destruct (checkout_guarded declined st) as (_ & Hdeclined & _).
    apply Hdeclined; reflexivity.
  - destruct (checkout_guarded Basic.CardPayment st0) as (Hempty & _).
    apply Hempty; reflexivity.
  - destruct (checkout_guarded Basic.CardPayment st) as (_ & _ & _ & _ & Hpaid).
    etransitivity; [apply Hpaid; reflexivity | vm_compute; reflexivity].
Defined.

(** ** The menu loop of the basic program *)

Lemma basic_reduceStock_inv (q : Z) (p p' : Basic.Product) (r : outcome bool) :
  Basic.reduceStock q p = (r, p') ->
  (r = Returns true /\ 0 < q <= Basic.getStock p
   /\ p' = Basic.mkProduct (Basic.getId p) (Basic.getName p) (Basic.getPrice p)
                           (wrap_int (Basic.getStock p - q)))
  \/ (r = Returns false /\ p' = p).
Proof.
  unfold Basic.reduceStock.
  destruct (Z.leb_spec q 0); [intros [= <- <-]; now right |].
  destruct (Z.gtb_spec q (Basic.getStock p)); intros [= <- <-]; [now right |].
  left. repeat split; lia.
Qed.

Lemma stock_sum_nonneg (ps : list Basic.Product) : stocks_ok ps -> 0 <= stock_sum ps.
Proof.
  induction 1 as [ | p ps Hp _ IH]; simpl; lia.
Qed.

Lemma pending_addItem (p : Basic.Product) (q : Z) (c : Basic.ShoppingCart) :
  pending (Basic.addItem p q c) = 1.
Proof.
  unfold pending, Basic.empty, Basic.addItem. simpl.
  now destruct (Basic.getItems c).
Qed.

Lemma pending_range (c : Basic.ShoppingCart) : 0 <= pending c <= 1.
Proof. unfold pending. destruct (Basic.empty c); lia. Qed.

Lemma add_loop_quantities (id q : Z) (ps : list Basic.Product) :
  forall (c : Basic.ShoppingCart) ps' c',
    Basic.add_loop id q ps c = (ps', c') ->
    positive_quantities (Basic.getItems c) ->
    positive_quantities (Basic.getItems c').
Proof.
  induction ps as [ | p rest IH]; simpl; intros c ps' c' Hrun Hc.
  - now inversion Hrun; subst.
  - destruct (Basic.getId p =? id).
    + destruct (Basic.reduceStock q p) as [r p1] eqn:Hred.
      apply basic_reduceStock_inv in Hred as [(-> & Hq & ->) | (-> & ->)].
      * destruct (Basic.add_loop id q rest _) as [rest' c1] eqn:Hrest.
        inversion Hrun; subst. eapply IH; [exact Hrest |].
        unfold Basic.addItem, positive_quantities. simpl.
        apply Forall_app. split; [exact Hc |].
        constructor; [simpl; lia | constructor].
      * destruct (Basic.add_loop id q rest c) as [rest' c1] eqn:Hrest.
        inversion Hrun; subst. eapply IH; eassumption.
    + destruct (Basic.add_loop id q rest c) as [rest' c1] eqn:Hrest.
      inversion Hrun; subst. eapply IH; eassumption.
Qed.

Lemma add_loop_budget (id q : Z) (ps : list Basic.Product) :
  forall (c : Basic.ShoppingCart) ps' c',
    Basic.add_loop id q ps c = (ps', c') ->
    stocks_ok ps ->
    stocks_ok ps' /\ stock_sum ps' + pending c' <= stock_sum ps + pending c.
Proof.
  induction ps as [ | p rest IH]; simpl; intros c ps' c' Hrun Hok.
  - inversion Hrun; subst. split; [constructor | simpl; lia].
  - inversion Hok as [ | ? ? Hp Hrest_ok]; subst.
    destruct (Basic.getId p =? id).
    + destruct (Basic.reduceStock q p) as [r p1] eqn:Hred.
      apply basic_reduceStock_inv in Hred as [(-> & Hq & ->) | (-> & ->)].
      * destruct (Basic.add_loop id q rest _) as [rest' c1] eqn:Hrest.
        inversion Hrun; subst.
        destruct (IH _ _ _ Hrest Hrest_ok) as [Hok' Hle].
        rewrite pending_addItem in Hle.
        assert (Hw : wrap_int (Basic.getStock p - q) = Basic.getStock p - q).
        { apply wrap_int_id. unfold is_int, INT_MIN, INT_MAX in *. lia. }
        pose proof (pending_range c).
        split; [constructor; [simpl; rewrite Hw; lia | exact Hok'] |].
        simpl. rewrite Hw. lia.
      * destruct (Basic.add_loop id q rest c) as [rest' c1] eqn:Hrest.
        inversion Hrun; subst.
        destruct (IH _ _ _ Hrest Hrest_ok) as [Hok' Hle].
        split; [now constructor | simpl; lia].
    + destruct (Basic.add_loop id q rest c) as [rest' c1] eqn:Hrest.
      inversion Hrun; subst.
      destruct (IH _ _ _ Hrest Hrest_ok) as [Hok' Hle].
      split; [now constructor | simpl; lia].
Qed.

Lemma initial_within_budget : within_budget Basic.initial.
Proof.
  unfold within_budget, stocks_ok, Basic.initial, INT_MAX. simpl.
  split; [ | split; [lia | vm_compute; discriminate]].
  repeat (apply Forall_cons; split; [simpl; lia | ]). apply Forall_nil_2.
Qed.

Section BasicLoop.

Variable select : Z -> Payment.

Lemma iteration_quantities (c : Basic.choice) (st st' : Basic.state) (o : option Basic.Order) :
  positive_quantities (Basic.getItems (Basic.cart st)) ->
  Basic.iteration select c st = Some (st', o) ->
  positive_quantities (Basic.getItems (Basic.cart st')).
Proof.
  intros Hst. destruct c as [ | id q | | pm | ]; simpl.
  - now intros [= <- <-].
  - destruct (Basic.add_loop id q _ _) as [ps c'] eqn:Hadd.
    intros [= <- <-]. simpl. eapply add_loop_quantities; eassumption.
  - now intros [= <- <-].
  - unfold Basic.checkout.
    destruct (Basic.empty (Basic.cart st)); [now intros [= <- <-] |].
    destruct (pay (select pm) _); [ | now intros [= <- <-]].
    simpl. intros [= <- <-]. simpl. constructor.
  - discriminate.
Qed.

Lemma main_loop_quantities (inputs : list Basic.choice) :
  forall st : Basic.state,
    positive_quantities (Basic.getItems (Basic.cart st)) ->
    positive_quantities
      (Basic.getItems (Basic.cart (fst (Basic.main_loop select inputs st)))).
Proof.
  induction inputs as [ | c rest IH]; simpl; intros st Hst; [exact Hst |].
  destruct (Basic.iteration select c st) as [[st' o] | ] eqn:Hit; [ | exact Hst].
  specialize (IH st' (iteration_quantities _ _ _ _ Hst Hit)).
  now destruct (Basic.main_loop select rest st') as [st'' os].
Qed.

Lemma iteration_budget (c : Basic.choice) (st st' : Basic.state) (o : option Basic.Order) :
  within_budget st ->
  Basic.iteration select c st = Some (st', o) ->
  within_budget st'
  /\ match o with
     | None => Basic.orderCounter st' = Basic.orderCounter st
     | Some x => Basic.Order_id x = Basic.orderCounter st + 1
                 /\ Basic.orderCounter st' = Basic.orderCounter st + 1
     end.
Proof.
  intros (Hok & Hc & Hle). destruct c as [ | id q | | pm | ]; simpl.
  - intros [= <- <-]. now repeat split.
  - destruct (Basic.add_loop id q _ _) as [ps c'] eqn:Hadd.
    intros [= <- <-]. simpl.
    destruct (add_loop_budget _ _ _ _ _ _ Hadd Hok) as [Hok' Hle'].
    unfold within_budget. simpl. repeat split; try assumption; lia.
  - intros [= <- <-]. now repeat split.
  - unfold Basic.checkout, pending in *.
    destruct (Basic.empty (Basic.cart st)) eqn:He.
    { intros [= <- <-]. unfold within_budget, pending. rewrite He. now repeat split. }
    destruct (pay (select pm) _).
    + simpl. intros [= <- <-].
      pose proof (stock_sum_nonneg _ Hok) as Hs.
      assert (Hw : wrap_int (Basic.orderCounter st + 1) = Basic.orderCounter st + 1).
      { apply wrap_int_id. unfold is_int, INT_MIN, INT_MAX. lia. }
      unfold within_budget, pending. simpl. rewrite Hw.
      repeat split; try assumption; lia.
    + intros [= <- <-]. unfold within_budget, pending. rewrite He. now repeat split.
  - discriminate.
Qed.

Lemma main_loop_ids (inputs : list Basic.choice) :
  forall st : Basic.state,
    within_budget st ->
    Basic.Order_id <$> snd (Basic.main_loop select inputs st)
    = seqZ (Basic.orderCounter st + 1)
           (Z.of_nat (length (snd (Basic.main_loop select inputs st)))).
Proof.
  induction inputs as [ | c rest IH]; simpl; intros st Hst; [reflexivity |].
  destruct (Basic.iteration select c st) as [[st' o] | ] eqn:Hit; [ | reflexivity].
  destruct (iteration_budget _ _ _ _ Hst Hit) as [Hst' Ho].
  specialize (IH st' Hst').
  destruct (Basic.main_loop select rest st') as [st'' os]. simpl in *.
  destruct o as [x | ].
  - destruct Ho as [Hx Hc]. rewrite fmap_cons, IH, Hx, Hc.
    rewrite (seqZ_cons (Basic.orderCounter st + 1)); [ | simpl length; lia].
    f_equal. f_equal; simpl length; lia.
  - now rewrite IH, Ho.
Qed.

End BasicLoop.

(** No run of the basic program makes more than 35 orders. *)
Lemma main_loop_counter_bound (select : Z -> Payment) (inputs : list Basic.choice) :
  forall st : Basic.state,
    within_budget st -> within_budget (fst (Basic.main_loop select inputs st)).
Proof.
  induction inputs as [ | c rest IH]; simpl; intros st Hst; [exact Hst |].
  destruct (Basic.iteration select c st) as [[st' o] | ] eqn:Hit; [ | exact Hst].
  destruct (iteration_budget _ _ _ _ _ Hst Hit) as [Hst' _].
  specialize (IH st' Hst').
  now destruct (Basic.main_loop select rest st') as [st'' os].
Qed.

(** The constructor of the advanced program counts the same way. *)
Lemma adv_new_Order_next (its : list Adv.CartItem) (n : Z) :
  0 <= n < INT_MAX ->
  exists o, Adv.new_Order its n = (o, n + 1) /\ Adv.orderId o = n + 1.
Proof.
  intros Hn. unfold Adv.new_Order.
  rewrite wrap_int_id by (unfold is_int, INT_MIN, INT_MAX in *; lia).
  eexists. split; reflexivity.
Qed.

(** Orders of the advanced program constructed in a row, while the counter
    stays an [int], are numbered on from the counter. *)
Lemma make_orders_numbered (carts : list (list Adv.CartItem)) :
  forall n : Z,
    0 <= n ->
    n + Z.of_nat (length carts) <= INT_MAX ->
    length (fst (make_orders carts n)) = length carts
    /\ forall (i : nat) (o : Adv.Order),
        fst (make_orders carts n) !! i = Some o ->
        Adv.orderId o = n + 1 + Z.of_nat i.
Proof.
  induction carts as [ | its rest IH]; intros n Hn Hmax.
  - simpl. split; [reflexivity |]. intros i o Ho. now rewrite lookup_nil in Ho.
  - simpl length in *. simpl make_orders. unfold Adv.new_Order.
    rewrite wrap_int_id by (unfold is_int, INT_MIN, INT_MAX in *; lia).
    destruct (IH (n + 1)) as [Hlen Hat]; [lia | lia |].
    destruct (make_orders rest (n + 1)) as [os final]. cbn [fst] in *.
    split; [simpl; now rewrite Hlen |].
    intros [ | i] o Ho.
    + injection Ho as <-. simpl. lia.
    + simpl in Ho. rewrite (Hat i o Ho). lia.
Qed.

(** C3: in a run of the basic program, whatever is typed and whichever
    payment objects are used (so with any number of refused checkouts in
    between), the orders constructed carry the ids 1, 2, 3, ... in the
    order of construction: the first has id 1 and each later one an id
    strictly greater than every earlier one.  The advanced program
    constructs one order, with id 1; and whatever orders are constructed in
    a row from the counter it starts with, as long as their number is an
    [int], the first has id 1, the ids are 1, 2, 3, ... and each later
    order has an id strictly greater than every earlier one. *)
Theorem order_ids_count_from_one :
  (forall (select : Z -> Payment) (inputs : list Basic.choice),
      let os := snd (Basic.main_loop select inputs Basic.initial) in
      Basic.Order_id <$> os = seqZ 1 (Z.of_nat (length os))
      /\ (forall x, os !! 0%nat = Some x -> Basic.Order_id x = 1)
      /\ (forall (i j : nat) x y,
            os !! i = Some x -> os !! j = Some y -> (i < j)%nat ->
            Basic.Order_id x < Basic.Order_id y))
  /\ (exists o w, Adv.main Adv.start = (Returns (Some o), w)
                  /\ Adv.orderId o = 1 /\ Adv.nextOrderId w = 1)
  /\ (forall carts : list (list Adv.CartItem),
        Z.of_nat (length carts) <= INT_MAX ->
        let os := fst (make_orders carts (Adv.nextOrderId Adv.start)) in
        length os = length carts
        /\ Adv.items <$> os = carts
        /\ (forall (i : nat) x, os !! i = Some x -> Adv.orderId x = 1 + Z.of_nat i)
        /\ (forall x, os !! 0%nat = Some x -> Adv.orderId x = 1)
        /\ (forall (i j : nat) x y,
              os !! i = Some x -> os !! j = Some y -> (i < j)%nat ->
              Adv.orderId x < Adv.orderId y)).
Proof.
  split; [ | split].
  - intros select inputs os.
    pose proof (main_loop_ids select inputs Basic.initial initial_within_budget) as Hids.
    fold os in Hids. simpl in Hids.
    assert (Hat : forall (i : nat) x, os !! i = Some x -> Basic.Order_id x = 1 + Z.of_nat i).
    { intros i x Hx.
      assert (Hi : (Basic.Order_id <$> os) !! i = Some (Basic.Order_id x))
        by (rewrite list_lookup_fmap, Hx; reflexivity).
      rewrite Hids in Hi. apply lookup_seqZ in Hi. lia. }
    split; [exact Hids | split].
    + intros x Hx. apply Hat in Hx. lia.
    + intros i j x y Hx Hy Hij. apply Hat in Hx. apply Hat in Hy. lia.
  - vm_compute. do 2 eexists. repeat split.
  - intros carts Hlen os. change (Adv.nextOrderId Adv.start) with 0 in os.
    destruct (make_orders_numbered carts 0) as [Hsize Hat]; [lia | lia |].
    fold os in Hsize, Hat.
    assert (Hitems : Adv.items <$> os = carts).
    { unfold os. clear. generalize 0 as n.
      induction carts as [ | its rest IH]; intros n; simpl; [reflexivity |].
      specialize (IH (wrap_int (n + 1))).
      destruct (make_orders rest (wrap_int (n + 1))) as [os final].
      cbn [fst] in *. rewrite fmap_cons, IH. reflexivity. }
    split; [exact Hsize | split; [exact Hitems | split; [ | split]]].
    + intros i x Hx. rewrite (Hat i x Hx). lia.
    + intros x Hx. rewrite (Hat _ x Hx). lia.
    + intros i j x y Hx Hy Hij. rewrite (Hat i x Hx), (Hat j y Hy). lia.
Qed.

(** Three books are bought, a pen is put in the cart, a checkout is
    declined, the next one goes through: orders 1 and 2.  Three orders of
    the advanced program made in a row: the second id is above the first,
    the third above the second. *)
Lemma order_ids_count_from_one_witness :
  let declining (pm : Z) : Payment :=
    if pm =? 7
    then Adv.CreditCardPayment_upcast (Adv.mkCreditCardPayment EmptyString "Alice")
    else Basic.select_payment pm in
  let typed :=
    [Basic.AddToCart 1 3; Basic.Checkout 1; Basic.Checkout 1;
     Basic.AddToCart 2 1; Basic.Checkout 7; Basic.Checkout 2] in
  let os := snd (Basic.main_loop declining typed Basic.initial) in
  let two_mice := [Adv.mkCartItem (Adv.mkProduct 1 "Mouse" 15%float 10) 2] in
  let made := fst (make_orders [two_mice; []; two_mice] (Adv.nextOrderId Adv.start)) in
  (length os = 2%nat
   /\ forall x y, os !! 0%nat = Some x -> os !! 1%nat = Some y ->
                  Basic.Order_id x = 1 /\ Basic.Order_id x < Basic.Order_id y)
  /\ (length made = 3%nat
      /\ forall x y z,
          made !! 0%nat = Some x -> made !! 1%nat = Some y -> made !! 2%nat = Some z ->
          Adv.orderId x = 1
          /\ Adv.orderId x < Adv.orderId y /\ Adv.orderId y < Adv.orderId z).
Proof.
  intros declining typed os two_mice made.
  destruct order_ids_count_from_one as (Hbasic & _ & Hadv).
  split.
  - split; [vm_compute; reflexivity |].
    intros x y Hx Hy.
    destruct (Hbasic declining typed) as (_ & Hfirst & Hlater).
    split.
    + apply Hfirst. exact Hx.
    + apply (Hlater 0%nat 1%nat x y Hx Hy). lia.
  - destruct (Hadv [two_mice; []; two_mice]) as (Hlen & _ & _ & Hfirst & Hlater).
    + unfold INT_MAX. simpl. lia.
    + split; [exact Hlen |].
      intros x y z Hx Hy Hz. split; [ | split].
      * apply Hfirst. exact Hx.
      * apply (Hlater 0%nat 1%nat x y Hx Hy). lia.
      * apply (Hlater 1%nat 2%nat y z Hy Hz). lia.
Defined.

(** ** Quantities in a cart *)

(** C6, as claimed, fails: [addToCart] stores the quantity it is given, and
    one call with quantity 0 on an empty cart leaves an item of quantity 0. *)
Lemma cart_accepts_zero_quantity :
  ~ adv_positive_quantities
      (Adv.getItems
         (do_calls [Call_addToCart (Adv.mkProduct 1 "Mouse" 15%float 10) 0]
                   (Adv.mkCart []))).
Proof.
  unfold adv_positive_quantities. simpl. intros H.
  apply Forall_cons in H as [H _]. simpl in H. lia.
Qed.

Lemma do_calls_quantities (cs : list cart_call) :
  forall this : Adv.ShoppingCart,
    Forall adds_positive cs ->
    adv_positive_quantities (Adv.getItems this) ->
    adv_positive_quantities (Adv.getItems (do_calls cs this)).
Proof.
  unfold do_calls.
  induction cs as [ | c cs IH]; simpl; intros this Hcs Hthis; [exact Hthis |].
  apply Forall_cons in Hcs as [Hc Hcs]. apply IH; [exact Hcs |].
  destruct c as [p qty | productId qty | ]; simpl in *.
  - apply Forall_app. split; [exact Hthis |]. now repeat constructor.
  - exact Hthis.
  - constructor.
Qed.

(** C6, amended: the carts the programs themselves build hold only items of
    quantity > 0 (the basic program calls [addItem(p,q)] only after
    [p.reduceStock(q)] returned [true], the advanced program adds quantity
    2), and so does every cart obtained by [addToCart], [removeFromCart],
    [clear] or [addItem] calls whose added quantities are all > 0. *)
Theorem quantities_positive_when_added_positive :
  (forall (select : Z -> Payment) (inputs : list Basic.choice),
      positive_quantities
        (Basic.getItems (Basic.cart (fst (Basic.main_loop select inputs Basic.initial)))))
  /\ adv_positive_quantities (Adv.getItems (Adv.cart (snd (Adv.main Adv.start))))
  /\ (forall (cs : list cart_call) (this : Adv.ShoppingCart),
        Forall adds_positive cs ->
        adv_positive_quantities (Adv.getItems this) ->
        adv_positive_quantities (Adv.getItems (do_calls cs this)))
  /\ (forall (p : Basic.Product) (q : Z) (this : Basic.ShoppingCart),
        0 < q ->
        positive_quantities (Basic.getItems this) ->
        positive_quantities (Basic.getItems (Basic.addItem p q this))).
Proof.
  split; [ | split; [ | split]].
  - intros select inputs. apply main_loop_quantities. constructor.
  - vm_compute. repeat constructor.
  - intros cs this. apply do_calls_quantities.
  - intros p q this Hq Hthis. unfold Basic.addItem, positive_quantities. simpl.
    apply Forall_app. split; [exact Hthis |]. now repeat constructor.
Qed.

Lemma quantities_positive_when_added_positive_witness :
  adv_positive_quantities
    (Adv.getItems
       (do_calls [Call_addToCart (Adv.mkProduct 1 "Mouse" 15%float 10) 2;
                  Call_removeFromCart 1 1;
                  Call_addToCart (Adv.mkProduct 2 "Keyboard" 25%float 5) 1]
                 (Adv.mkCart []))).
Proof.
  apply quantities_positive_when_added_positive.
  - repeat (apply Forall_cons; split; [simpl; try lia; exact I | ]). apply Forall_nil_2.
  - apply Forall_nil_2.
Defined.

(** ** Totals of a cart of the advanced program *)

Lemma adv_total_loop_app (l : list Adv.CartItem) (ci : Adv.CartItem) :
  forall sum : double,
    Adv.total_loop sum (l ++ [ci])
    = PrimFloat.add (Adv.total_loop sum l) (Adv.subtotal ci).
Proof.
  induction l as [ | c l IH]; simpl; intros sum; [reflexivity | apply IH].
Qed.

Lemma adv_total_loop_fold (l : list Adv.CartItem) :
  forall sum : double,
    Adv.total_loop sum l
    = fold_left
        (fun s ci =>
           PrimFloat.add s (PrimFloat.mul (Adv.getPrice (Adv.product ci))
                                          (double_of_int (Adv.quantity ci))))
        l sum.
Proof.
  induction l as [ | c l IH]; simpl; intros sum; [reflexivity | apply IH].
Qed.

Lemma on_inv_frame {A : Type} (m : method Adv.Inventory A) (w : Adv.world) :
  Adv.cart (snd (Adv.on_inv m w)) = Adv.cart w
  /\ Adv.nextOrderId (snd (Adv.on_inv m w)) = Adv.nextOrderId w.
Proof.
  unfold Adv.on_inv. destruct (m (Adv.inv w)) as [r i]. split; reflexivity.
Qed.

(** C4: [total()] is the sum, taken in [double] arithmetic from 0 in the
    order of the items, of price times quantity over the items of the cart;
    each [addToCart(p, qty)] adds the price [p] has at that moment times
    [qty].  The item holds its own copy of the product: after
    [cart.addToCart(inv.getProduct(id), qty)], whatever member functions are
    then called on the inventory (replacing the product under [id] by one
    with another price, reducing its stock) or on the product that was
    passed, the items of the cart, the subtotal of the added item and the
    total are what they were. *)
Theorem total_is_sum_of_copies :
  (forall this : Adv.ShoppingCart,
      Adv.total this
      = fold_left
          (fun s ci =>
             PrimFloat.add s (PrimFloat.mul (Adv.getPrice (Adv.product ci))
                                            (double_of_int (Adv.quantity ci))))
          (Adv.getItems this) 0%float)
  /\ (forall (p : Adv.Product) (qty : Z) (this : Adv.ShoppingCart),
        Adv.total (Adv.addToCart p qty this)
        = PrimFloat.add (Adv.total this)
                        (PrimFloat.mul (Adv.getPrice p) (double_of_int qty)))
  /\ (forall (A : Type) (m : method Adv.Inventory A) (w : Adv.world),
        Adv.getItems (Adv.cart (snd (Adv.on_inv m w))) = Adv.getItems (Adv.cart w)
        /\ Adv.total (Adv.cart (snd (Adv.on_inv m w))) = Adv.total (Adv.cart w))
  /\ (forall (A : Type) (id qty : Z) (w w1 : Adv.world) (p : Adv.Product)
             (later : method Adv.Inventory A),
        Adv.on_inv (Adv.getProduct id) w = (Returns p, w1) ->
        let w2 := snd (Adv.on_cart (Adv.addToCart p qty) w1) in
        let w3 := snd (Adv.on_inv later w2) in
        Adv.getItems (Adv.cart w3)
        = Adv.getItems (Adv.cart w) ++ [Adv.mkCartItem p qty]
        /\ Adv.total (Adv.cart w3)
           = PrimFloat.add (Adv.total (Adv.cart w))
                           (PrimFloat.mul (Adv.getPrice p) (double_of_int qty)))
  /\ (forall (B : Type) (qty : Z) (cl : client) (m : method Adv.Product B),
        let cl' := snd (on_original m (add_original qty cl)) in
        Adv.getItems (held cl')
        = Adv.getItems (held cl) ++ [Adv.mkCartItem (original cl) qty]
        /\ Adv.total (held cl')
           = PrimFloat.add (Adv.total (held cl))
                           (PrimFloat.mul (Adv.getPrice (original cl))
                                          (double_of_int qty))).
Proof.
  split; [ | split; [ | split; [ | split]]].
  - intros this. apply adv_total_loop_fold.
  - intros p qty this. unfold Adv.total, Adv.addToCart. simpl.
    apply adv_total_loop_app.
  - intros A m w. destruct (on_inv_frame m w) as [-> _]. split; reflexivity.
  - intros A id qty w w1 p later Hget w2 w3.
    assert (Hw1 : Adv.cart w1 = Adv.cart w).
    { pose proof (on_inv_frame (Adv.getProduct id) w) as [Hc _].
      now rewrite Hget in Hc. }
    assert (Hw3 : Adv.cart w3 = Adv.addToCart p qty (Adv.cart w)).
    { unfold w3. destruct (on_inv_frame later w2) as [-> _].
      unfold w2. simpl. now rewrite Hw1. }
    rewrite Hw3. split; [reflexivity |].
    unfold Adv.total, Adv.addToCart. simpl. apply adv_total_loop_app.
  - intros B qty cl m cl'.
    assert (Hcl : held cl' = Adv.addToCart (original cl) qty (held cl)).
    { unfold cl', on_original, add_original. simpl.
      now destruct (m (original cl)). }
    rewrite Hcl. split; [reflexivity |].
    unfold Adv.total, Adv.addToCart. simpl. apply adv_total_loop_app.
Qed.

(** Two mice at 15.0 are in the cart; the inventory then sells the mouse at
    99.0 and loses three of them; the total stays 30.0. *)
Lemma total_is_sum_of_copies_witness :
  let mouse := Adv.mkProduct 1 "Mouse" 15%float 10 in
  let w := Adv.mkWorld (Adv.addProduct mouse (Adv.mkInventory ∅)) (Adv.mkCart []) 0 in
  let later : method Adv.Inventory bool :=
    call _ <- modify (Adv.addProduct (Adv.mkProduct 1 "Mouse" 99%float 10)) ;;
    Adv.Inventory_reduceStock 1 3 in
  let w3 := snd (Adv.on_inv later (snd (Adv.on_cart (Adv.addToCart mouse 2) w))) in
  Adv.getItems (Adv.cart w3) = [Adv.mkCartItem mouse 2]
  /\ Adv.total (Adv.cart w3) = 30%float
  /\ fst (Adv.getProduct 1 (Adv.inv w3))
     = Returns (Adv.mkProduct 1 "Mouse" 99%float 7).
Proof.
  intros mouse w later w3.
  destruct total_is_sum_of_copies as (_ & _ & _ & H & _).
  destruct (H bool 1 2 w w mouse later) as [Hi Ht].
  { vm_compute. reflexivity. }
  split; [exact Hi | split].
  - etransitivity; [exact Ht | vm_compute; reflexivity].
  - vm_compute. reflexivity.
Defined.

(** ** Listing the inventory *)

Lemma push_back_all (kvs : list (Z * Adv.Product)) :
  forall out : list Adv.Product,
    fold_left (fun out kv => out ++ [snd kv]) kvs out = out ++ kvs.*2.
Proof.
  induction kvs as [ | kv kvs IH]; simpl; intros out.
  - now rewrite app_nil_r.
  - rewrite IH, <- app_assoc. reflexivity.
Qed.

Lemma sort_insert_perm {A : Type} (comp : A -> A -> bool) (x : A) (l : list A) :
  Adv.sort_insert comp x l ≡ₚ x :: l.
Proof.
  induction l as [ | y l IH]; simpl; [reflexivity |].
  destruct (comp x y); [reflexivity |].
  rewrite IH. apply Permutation_swap.
Qed.

Lemma std_sort_perm {A : Type} (comp : A -> A -> bool) (l : list A) :
  Adv.std_sort comp l ≡ₚ l.
Proof.
  induction l as [ | x l IH]; simpl; [reflexivity |].
  now rewrite sort_insert_perm, IH.
Qed.

Lemma sort_insert_by_id_sorted (x : Adv.Product) (l : list Adv.Product) :
  StronglySorted le_id l -> StronglySorted le_id (Adv.sort_insert Adv.by_id x l).
Proof.
  induction 1 as [ | y l Hl IH Hy]; simpl.
  - repeat constructor.
  - unfold Adv.by_id at 1. destruct (Z.ltb_spec (Adv.getId x) (Adv.getId y)) as [Hxy | Hyx].
    + constructor; [now constructor |].
      constructor; [unfold le_id; lia |].
      eapply Forall_impl; [exact Hy |]. unfold le_id. intros z Hz. lia.
    + constructor; [exact IH |].
      rewrite sort_insert_perm. constructor; [exact Hyx | exact Hy].
Qed.

Lemma std_sort_by_id_sorted (l : list Adv.Product) :
  StronglySorted le_id (Adv.std_sort Adv.by_id l).
Proof.
  induction l as [ | x l IH]; simpl; [constructor |].
  now apply sort_insert_by_id_sorted.
Qed.

Lemma sorted_distinct_strict (l : list Adv.Product) :
  StronglySorted le_id l -> NoDup (Adv.getId <$> l) -> StronglySorted lt_id l.
Proof.
  induction 1 as [ | x l Hl IH Hx]; simpl; intros Hnd; [constructor |].
  apply NoDup_cons in Hnd as [Hnotin Hnd].
  constructor; [now apply IH |].
  apply Forall_forall. intros y Hy.
  rewrite Forall_forall in Hx. specialize (Hx y Hy). unfold le_id, lt_id in *.
  assert (Adv.getId x <> Adv.getId y); [ | lia].
  intros Heq. apply Hnotin. rewrite Heq. apply list_elem_of_fmap. now exists y.
Qed.

Lemma strictly_sorted_unique (l1 l2 : list Adv.Product) :
  StronglySorted lt_id l1 -> StronglySorted lt_id l2 -> l1 ≡ₚ l2 -> l1 = l2.
Proof.
  apply StronglySorted_unique_strong.
  unfold lt_id. intros x1 x2 _ _ H12 H21. lia.
Qed.

Lemma keyed_by_id_empty : keyed_by_id ∅.
Proof. intros k p. rewrite lookup_empty. discriminate. Qed.

Lemma keyed_by_id_addProduct (p : Adv.Product) (this : Adv.Inventory) :
  keyed_by_id (Adv.products this) ->
  keyed_by_id (Adv.products (Adv.addProduct p this)).
Proof.
  intros Hthis k q. unfold Adv.addProduct. simpl.
  destruct (decide (Adv.getId p = k)) as [<- | Hne].
  - rewrite lookup_insert_eq. now intros [= <-].
  - rewrite lookup_insert_ne by exact Hne. apply Hthis.
Qed.

Lemma keyed_by_id_filled (ps : list Adv.Product) :
  keyed_by_id (Adv.products (filled ps)).
Proof.
  unfold filled.
  assert (H : forall i, keyed_by_id (Adv.products i) ->
                        keyed_by_id (Adv.products
                                       (fold_left (fun i p => Adv.addProduct p i) ps i))).
  { induction ps as [ | p ps IH]; simpl; intros i Hi; [exact Hi |].
    apply IH. now apply keyed_by_id_addProduct. }
  apply H. simpl. apply keyed_by_id_empty.
Qed.

Lemma keyed_ids_are_keys (m : gmap Z Adv.Product) :
  keyed_by_id m -> Adv.getId <$> (map_to_list m).*2 = (map_to_list m).*1.
Proof.
  intros Hm. rewrite <- list_fmap_compose.
  apply list_fmap_ext. intros i [k p] Hkp. simpl.
  apply Hm. apply elem_of_map_to_list. eapply list_elem_of_lookup_2. exact Hkp.
Qed.

Lemma listAll_visiting_spec (m : gmap Z Adv.Product) (kvs : list (Z * Adv.Product)) :
  keyed_by_id m -> Adv.visits m kvs ->
  StronglySorted lt_id (Adv.listAll_visiting kvs)
  /\ Adv.listAll_visiting kvs ≡ₚ (map_to_list m).*2.
Proof.
  intros Hm Hv. unfold Adv.visits in Hv. unfold Adv.listAll_visiting.
  rewrite push_back_all. simpl.
  assert (Hperm : Adv.std_sort Adv.by_id kvs.*2 ≡ₚ (map_to_list m).*2).
  { rewrite std_sort_perm. now rewrite Hv. }
  split; [ | exact Hperm].
  apply sorted_distinct_strict; [apply std_sort_by_id_sorted |].
  rewrite Hperm, (keyed_ids_are_keys m Hm).
  apply NoDup_fst_map_to_list.
Qed.

Lemma filled_from_perm (ps ps' : list Adv.Product) :
  ps ≡ₚ ps' ->
  NoDup (Adv.getId <$> ps) ->
  forall i : Adv.Inventory,
    fold_left (fun i p => Adv.addProduct p i) ps i
    = fold_left (fun i p => Adv.addProduct p i) ps' i.
Proof.
  induction 1 as [ | x l l' Hl IH | x y l | l l' l'' H1 IH1 H2 IH2];
    intros Hnd i; simpl.
  - reflexivity.
  - apply IH. simpl in Hnd. now apply NoDup_cons in Hnd as [_ Hnd].
  - f_equal. unfold Adv.addProduct. simpl. f_equal.
    apply insert_insert_ne.
    simpl in Hnd. apply NoDup_cons in Hnd as [Hy _].
    intros Heq. apply Hy. rewrite Heq. left.
  - rewrite IH1 by exact Hnd. apply IH2. now rewrite <- H1.
Qed.

(** C9: for the inventory reached by any sequence of [addProduct] calls
    and whichever order the map is visited in, [listAll()] returns the
    stored products, each once, sorted by strictly ascending id; the result
    does not depend on the visiting order, nor on the order in which
    products of distinct ids were added. *)
Theorem listAll_sorted_by_id (ps : list Adv.Product) (kvs : list (Z * Adv.Product)) :
  Adv.visits (Adv.products (filled ps)) kvs ->
  StronglySorted lt_id (Adv.listAll_visiting kvs)
  /\ (forall p : Adv.Product,
        p ∈ Adv.listAll_visiting kvs
        <-> exists k : Z, Adv.products (filled ps) !! k = Some p)
  /\ length (Adv.listAll_visiting kvs) = size (Adv.products (filled ps))
  /\ Adv.listAll_visiting kvs = Adv.listAll (filled ps)
  /\ (forall ps' : list Adv.Product,
        ps' ≡ₚ ps -> NoDup (Adv.getId <$> ps) ->
        Adv.listAll (filled ps') = Adv.listAll_visiting kvs).
Proof.
  intros Hv.
  pose proof (keyed_by_id_filled ps) as Hm.
  destruct (listAll_visiting_spec _ kvs Hm Hv) as [Hsorted Hperm].
  assert (Hcanon : Adv.listAll_visiting kvs = Adv.listAll (filled ps)).
  { unfold Adv.listAll.
    destruct (listAll_visiting_spec _ (map_to_list (Adv.products (filled ps))) Hm)
      as [Hsorted' Hperm']; [unfold Adv.visits; reflexivity |].
    apply strictly_sorted_unique; [exact Hsorted | exact Hsorted' |].
    now rewrite Hperm, Hperm'. }
  split; [exact Hsorted | split; [ | split; [ | split; [exact Hcanon | ]]]].
  - intros p. rewrite Hperm, list_elem_of_fmap. split.
    + intros [[k q] [-> Hkq]]. exists k. now apply elem_of_map_to_list.
    + intros [k Hk]. exists (k, p). split; [reflexivity |].
      now apply elem_of_map_to_list.
  - now rewrite Hperm, length_fmap, length_map_to_list.
  - intros ps' Hps Hnd. rewrite Hcanon. f_equal. unfold filled.
    symmetry. now apply filled_from_perm.
Qed.

(** Keyboard added before mouse, and the map visited keyboard first: the
    listing still starts with the mouse. *)
Lemma listAll_sorted_by_id_witness :
  let mouse := Adv.mkProduct 1 "Mouse" 15%float 10 in
  let keyboard := Adv.mkProduct 2 "Keyboard" 25%float 5 in
  Adv.listAll_visiting [(2, keyboard); (1, mouse)] = [mouse; keyboard]
  /\ StronglySorted lt_id (Adv.listAll_visiting [(2, keyboard); (1, mouse)]).
Proof.
  intros mouse keyboard.
  split; [vm_compute; reflexivity |].
  apply (listAll_sorted_by_id [keyboard; mouse] [(2, keyboard); (1, mouse)]).
  unfold Adv.visits. vm_compute.
  first [reflexivity | apply Permutation_swap].
Defined.

(** ** The scenario of the specification *)

(** Three books are put in the cart and paid by card: the shelf keeps 7
    books, the order is number 1 over 31.5 and the cart is empty. *)
Example basic_scenario :
  Basic.main [Basic.AddToCart 1 3; Basic.Checkout 1]
  = (Basic.mkState [ Basic.mkProduct 1 "Book" 10.5%float 7;
                     Basic.mkProduct 2 "Pen" 2.5%float 20;
                     Basic.mkProduct 3 "Laptop" 800%float 5 ]
                   (Basic.mkCart []) 1,
     [Basic.mkOrder 1 [Basic.mkCartItem (Basic.mkProduct 1 "Book" 10.5%float 7) 3]
                    31.5%float]).
Proof. vm_compute. reflexivity. Qed.

(** The run of the advanced program: one order, number 1, over 30.0; the
    cart is not cleared. *)
Example adv_main_runs :
  Adv.main Adv.start
  = (Returns
       (Some (Adv.mkOrder 1 [Adv.mkCartItem (Adv.mkProduct 1 "Mouse" 15%float 10) 2]
                          30%float)),
     Adv.mkWorld
       (Adv.addProduct (Adv.mkProduct 2 "Keyboard" 25%float 5)
          (Adv.addProduct (Adv.mkProduct 1 "Mouse" 15%float 10) (Adv.mkInventory ∅)))
       (Adv.mkCart [Adv.mkCartItem (Adv.mkProduct 1 "Mouse" 15%float 10) 2]) 1).
Proof. vm_compute. reflexivity. Qed.

(** * Further properties of the code *)

(** ** Stock of one product *)

(** X1: in the advanced program, giving back what was taken restores the
    product, and taking what was just added restores it too, as long as the
    sum stays an [int]; [increaseStock] with a quantity that is not
    positive silently does nothing. *)
Theorem stock_round_trip (this : Adv.Product) (qty : Z) :
  is_int (Adv.getStock this) ->
  (0 < qty <= Adv.getStock this ->
   Adv.increaseStock qty (snd (Adv.reduceStock qty this)) = this)
  /\ (0 < qty -> 0 <= Adv.getStock this -> Adv.getStock this + qty <= INT_MAX ->
      Adv.reduceStock qty (Adv.increaseStock qty this) = (Returns true, this))
  /\ (qty <= 0 -> Adv.increaseStock qty this = this).
Proof.
  intros Hs. split; [ | split].
  - intros Hq. rewrite adv_reduceStock_ok by assumption. simpl.
    unfold Adv.increaseStock. simpl.
    destruct (Z.gtb_spec qty 0); [ | lia].
    rewrite wrap_int_id by (unfold is_int, INT_MIN, INT_MAX in *; lia).
    destruct this as [i n p s]. simpl. f_equal. lia.
  - intros Hq H0 Hmax. unfold Adv.increaseStock.
    destruct (Z.gtb_spec qty 0); [ | lia].
    rewrite wrap_int_id by (unfold is_int, INT_MIN, INT_MAX in *; lia).
    rewrite adv_reduceStock_ok; simpl.
    + destruct this as [i n p s]. simpl. do 2 f_equal. lia.
    + unfold is_int, INT_MIN, INT_MAX in *. lia.
    + lia.
  - intros Hq. unfold Adv.increaseStock.
    destruct (Z.gtb_spec qty 0); [lia | reflexivity].
Qed.

Lemma stock_round_trip_witness :
  let mouse := Adv.mkProduct 1 "Mouse" 15%float 10 in
  Adv.increaseStock 4 (snd (Adv.reduceStock 4 mouse)) = mouse
  /\ Adv.reduceStock 4 (Adv.increaseStock 4 mouse) = (Returns true, mouse)
  /\ Adv.increaseStock (-4) mouse = mouse.
Proof.
  intros mouse.
  assert (Hs : is_int (Adv.getStock mouse))
    by (unfold is_int, INT_MIN, INT_MAX; simpl; lia).
  destruct (stock_round_trip mouse 4 Hs) as (H1 & H2 & _).
  destruct (stock_round_trip mouse (-4) Hs) as (_ & _ & H3).
  split; [ | split].
  - apply H1. simpl. lia.
  - apply H2; unfold INT_MAX; simpl; lia.
  - apply H3. lia.
Defined.

(** X2: in both files two reductions in a row that the stock covers are
    one reduction by the sum; when the stock covers the first but not both,
    the second is refused and the first is not undone. *)
Theorem reduceStock_twice (b : Basic.Product) (a : Adv.Product) (q1 q2 : Z) :
  is_int (Basic.getStock b) ->
  is_int (Adv.getStock a) ->
  0 < q1 -> 0 < q2 ->
  (q1 + q2 <= Basic.getStock b ->
   (call _ <- Basic.reduceStock q1 ;; Basic.reduceStock q2) b
   = Basic.reduceStock (q1 + q2) b)
  /\ (q1 <= Basic.getStock b < q1 + q2 ->
      (call _ <- Basic.reduceStock q1 ;; Basic.reduceStock q2) b
      = (Returns false,
         Basic.mkProduct (Basic.getId b) (Basic.getName b) (Basic.getPrice b)
                         (Basic.getStock b - q1)))
  /\ (q1 + q2 <= Adv.getStock a ->
      (call _ <- Adv.reduceStock q1 ;; Adv.reduceStock q2) a
      = Adv.reduceStock (q1 + q2) a)
  /\ (q1 <= Adv.getStock a < q1 + q2 ->
      (call _ <- Adv.reduceStock q1 ;; Adv.reduceStock q2) a
      = (Returns false,
         Adv.mkProduct (Adv.getId a) (Adv.getName a) (Adv.getPrice a)
                       (Adv.getStock a - q1))).
Proof.
  intros Hb Ha H1 H2. unfold bind.
  assert (Hb' : is_int (Basic.getStock b - q1) \/ Basic.getStock b < q1)
    by (unfold is_int, INT_MIN, INT_MAX in *; lia).
  assert (Ha' : is_int (Adv.getStock a - q1) \/ Adv.getStock a < q1)
    by (unfold is_int, INT_MIN, INT_MAX in *; lia).
  split; [ | split; [ | split]]; intros Hq.
  - rewrite (basic_reduceStock_ok b q1) by (assumption || lia).
    rewrite basic_reduceStock_ok; simpl; [ | destruct Hb'; [assumption | lia] | lia].
    rewrite (basic_reduceStock_ok b (q1 + q2)) by (assumption || lia).
    do 2 f_equal. lia.
  - rewrite (basic_reduceStock_ok b q1) by (assumption || lia).
    apply basic_reduceStock_refused. simpl. lia.
  - rewrite (adv_reduceStock_ok a q1) by (assumption || lia).
    rewrite adv_reduceStock_ok; simpl; [ | destruct Ha'; [assumption | lia] | lia].
    rewrite (adv_reduceStock_ok a (q1 + q2)) by (assumption || lia).
    do 2 f_equal. lia.
  - rewrite (adv_reduceStock_ok a q1) by (assumption || lia).
    apply adv_reduceStock_refused. simpl. lia.
Qed.

Lemma reduceStock_twice_witness :
  let book := Basic.mkProduct 1 "Book" 10.5%float 10 in
  let mouse := Adv.mkProduct 1 "Mouse" 15%float 10 in
  (call _ <- Basic.reduceStock 3 ;; Basic.reduceStock 4) book
  = Basic.reduceStock 7 book
  /\ (call _ <- Adv.reduceStock 3 ;; Adv.reduceStock 8) mouse
     = (Returns false, Adv.mkProduct 1 "Mouse" 15%float 7).
Proof.
  intros book mouse.
  assert (Hb : is_int (Basic.getStock book))
    by (unfold is_int, INT_MIN, INT_MAX; simpl; lia).
  assert (Ha : is_int (Adv.getStock mouse))
    by (unfold is_int, INT_MIN, INT_MAX; simpl; lia).
  split.
  - apply (reduceStock_twice book mouse 3 4 Hb Ha); simpl; lia.
  - apply (reduceStock_twice book mouse 3 8 Hb Ha); simpl; lia.
Defined.

(** ** Comparing and pricing a product *)

(** X3: [Product::operator==] of the advanced program looks at the id only:
    it is an equivalence, two products with the same id are equal whatever
    their name, price and stock, and no member function that changes a
    product changes what it is equal to. *)
Theorem Product_eq_is_same_id :
  (forall a b : Adv.Product, Adv.Product_eq a b = true <-> Adv.getId a = Adv.getId b)
  /\ (forall a : Adv.Product, Adv.Product_eq a a = true)
  /\ (forall a b : Adv.Product, Adv.Product_eq a b = Adv.Product_eq b a)
  /\ (forall a b c : Adv.Product,
        Adv.Product_eq a b = true -> Adv.Product_eq b c = true ->
        Adv.Product_eq a c = true)
  /\ (forall (this : Adv.Product) (p : double) (s q : Z),
        Adv.Product_eq (snd (Adv.setPrice p this)) this = true
        /\ Adv.Product_eq (snd (Adv.setStock s this)) this = true
        /\ Adv.Product_eq (snd (Adv.reduceStock q this)) this = true
        /\ Adv.Product_eq (Adv.increaseStock q this) this = true).
Proof.
  unfold Adv.Product_eq.
  split; [ | split; [ | split; [ | split]]].
  - intros a b. apply Z.eqb_eq.
  - intros a. apply Z.eqb_refl.
  - intros a b. apply Z.eqb_sym.
  - intros a b c Hab Hbc. apply Z.eqb_eq in Hab, Hbc. apply Z.eqb_eq. congruence.
  - intros this p s q. repeat split; apply Z.eqb_eq.
    + unfold Adv.setPrice. now destruct (PrimFloat.ltb p 0%float).
    + unfold Adv.setStock. now destruct (s <? 0).
    + unfold Adv.reduceStock. destruct (q <=? 0); [reflexivity |].
      now destruct (q >? Adv.getStock this).
    + unfold Adv.increaseStock. now destruct (q >? 0).
Qed.

Lemma Product_eq_is_same_id_witness :
  Adv.Product_eq (Adv.mkProduct 1 "Mouse" 15%float 10)
                 (Adv.mkProduct 1 "Keyboard" 25%float 5) = true.
Proof.
  destruct Product_eq_is_same_id as (_ & _ & _ & Htrans & _).
  apply (Htrans _ (Adv.mkProduct 1 "Pad" 3%float 0)); reflexivity.
Defined.

(** X4: in both files [setPrice(p)] throws exactly when [p < 0] holds as a
    comparison of doubles.  A not-a-number is neither below 0 nor at least
    0, so [setPrice] stores it and returns. *)
Theorem setPrice_refuses_only_below_zero (b : Basic.Product) (a : Adv.Product) (p : double) :
  ((exists e, fst (Basic.setPrice p b) = Throws e) <-> PrimFloat.ltb p 0%float = true)
  /\ ((exists e, fst (Adv.setPrice p a) = Throws e) <-> PrimFloat.ltb p 0%float = true)
  /\ PrimFloat.ltb nan 0%float = false
  /\ PrimFloat.leb 0%float nan = false
  /\ Basic.setPrice nan b
     = (Returns tt, Basic.mkProduct (Basic.getId b) (Basic.getName b) nan (Basic.getStock b))
  /\ Adv.setPrice nan a
     = (Returns tt, Adv.mkProduct (Adv.getId a) (Adv.getName a) nan (Adv.getStock a)).
Proof.
  unfold Basic.setPrice, Adv.setPrice.
  split; [ | split; [ | repeat split]].
  - destruct (PrimFloat.ltb p 0%float); simpl; split; try congruence.
    + intros _. eexists. reflexivity.
    + intros [e He]. discriminate.
  - destruct (PrimFloat.ltb p 0%float); simpl; split; try congruence.
    + intros _. eexists. reflexivity.
    + intros [e He]. discriminate.
Qed.

(** ** The inventory as a map *)

(** X5: [hasProduct(id)] is true exactly when [getProduct(id)] returns,
    false exactly when it throws, and false for every id on the inventory
    nothing was added to. *)
Theorem hasProduct_agrees_with_getProduct (this : Adv.Inventory) (id : Z) :
  (Adv.hasProduct id this = true
   <-> exists p, Adv.getProduct id this = (Returns p, this))
  /\ (Adv.hasProduct id this = false
      <-> Adv.getProduct id this = (Throws (ShopException "Product not found"), this))
  /\ Adv.hasProduct id (Adv.mkInventory ∅) = false.
Proof.
  unfold Adv.hasProduct, Adv.getProduct. split; [ | split].
  - destruct (Adv.products this !! id) as [p | ]; split; try congruence.
    + intros _. now exists p.
    + intros [p Hp]. discriminate.
  - destruct (Adv.products this !! id) as [p | ]; split; congruence.
  - simpl. now rewrite lookup_empty.
Qed.

(** X6: [addProduct] inserts or replaces at the id of the product: the
    product can be read back, every other id reads as before, adding the
    same product again changes nothing, a second product of the same id
    replaces the first, and the number of products grows by one exactly
    when the id was not there. *)
Theorem addProduct_upsert (p q : Adv.Product) (this : Adv.Inventory) (id : Z) :
  Adv.getProduct (Adv.getId p) (Adv.addProduct p this) = (Returns p, Adv.addProduct p this)
  /\ Adv.hasProduct (Adv.getId p) (Adv.addProduct p this) = true
  /\ (id <> Adv.getId p ->
      fst (Adv.getProduct id (Adv.addProduct p this)) = fst (Adv.getProduct id this)
      /\ Adv.hasProduct id (Adv.addProduct p this) = Adv.hasProduct id this)
  /\ Adv.addProduct p (Adv.addProduct p this) = Adv.addProduct p this
  /\ (Adv.getId q = Adv.getId p ->
      Adv.addProduct q (Adv.addProduct p this) = Adv.addProduct q this)
  /\ size (Adv.products (Adv.addProduct p this))
     = if Adv.hasProduct (Adv.getId p) this
       then size (Adv.products this)
       else S (size (Adv.products this)).
Proof.
  unfold Adv.getProduct, Adv.hasProduct, Adv.addProduct. simpl.
  split; [ | split; [ | split; [ | split; [ | split]]]].
  - now rewrite lookup_insert_eq.
  - now rewrite lookup_insert_eq.
  - intros Hne. rewrite lookup_insert_ne by congruence.
    split; [ | reflexivity].
    now destruct (Adv.products this !! id).
  - now rewrite insert_insert_eq.
  - intros ->. now rewrite insert_insert_eq.
  - rewrite map_size_insert.
    now destruct (Adv.products this !! Adv.getId p).
Qed.

Lemma addProduct_upsert_witness :
  let mouse := Adv.mkProduct 1 "Mouse" 15%float 10 in
  let dear_mouse := Adv.mkProduct 1 "Mouse" 99%float 10 in
  let keyboard := Adv.mkProduct 2 "Keyboard" 25%float 5 in
  let this := Adv.addProduct keyboard (Adv.mkInventory ∅) in
  fst (Adv.getProduct 2 (Adv.addProduct mouse this)) = Returns keyboard
  /\ Adv.addProduct dear_mouse (Adv.addProduct mouse this) = Adv.addProduct dear_mouse this.
Proof.
  intros mouse dear_mouse keyboard this.
  destruct (addProduct_upsert mouse dear_mouse this 2) as (_ & _ & Hother & _ & Hreplace & _).
  split.
  - etransitivity; [apply Hother; simpl; lia | vm_compute; reflexivity].
  - apply Hreplace. reflexivity.
Defined.

Lemma inventory_eta (this : Adv.Inventory) : Adv.mkInventory (Adv.products this) = this.
Proof. now destruct this. Qed.

(** X7: [Inventory::reduceStock(id, qty)] returns [false] and leaves the
    inventory as it was when nothing is stored at [id], and when the
    product stored there refuses ([qty <= 0] or [qty > stock]); when
    [0 < qty <= stock] it returns [true], the product at [id] has its stock
    decreased by [qty] and every other id reads as before. *)
Theorem Inventory_reduceStock_contract (this : Adv.Inventory) (id qty : Z) :
  (Adv.products this !! id = None ->
   Adv.Inventory_reduceStock id qty this = (Returns false, this))
  /\ (forall p : Adv.Product,
        Adv.products this !! id = Some p ->
        qty <= 0 \/ qty > Adv.getStock p ->
        Adv.Inventory_reduceStock id qty this = (Returns false, this))
  /\ (forall p : Adv.Product,
        Adv.products this !! id = Some p ->
        is_int (Adv.getStock p) ->
        0 < qty <= Adv.getStock p ->
        fst (Adv.Inventory_reduceStock id qty this) = Returns true
        /\ Adv.products (snd (Adv.Inventory_reduceStock id qty this)) !! id
           = Some (Adv.mkProduct (Adv.getId p) (Adv.getName p) (Adv.getPrice p)
                                 (Adv.getStock p - qty))
        /\ forall k : Z,
            k <> id ->
            Adv.products (snd (Adv.Inventory_reduceStock id qty this)) !! k
            = Adv.products this !! k).
Proof.
  unfold Adv.Inventory_reduceStock. split; [ | split].
  - now intros ->.
  - intros p Hp Hq. rewrite Hp, adv_reduceStock_refused by exact Hq.
    rewrite insert_id by exact Hp. now rewrite inventory_eta.
  - intros p Hp Hs Hq. rewrite Hp, adv_reduceStock_ok by assumption. simpl.
    split; [reflexivity | split].
    + now rewrite lookup_insert_eq.
    + intros k Hk. now rewrite lookup_insert_ne by congruence.
Qed.

Lemma Inventory_reduceStock_contract_witness :
  let mouse := Adv.mkProduct 1 "Mouse" 15%float 10 in
  let this := Adv.addProduct mouse (Adv.mkInventory ∅) in
  Adv.Inventory_reduceStock 7 1 this = (Returns false, this)
  /\ Adv.Inventory_reduceStock 1 11 this = (Returns false, this)
  /\ Adv.products (snd (Adv.Inventory_reduceStock 1 3 this)) !! 1
     = Some (Adv.mkProduct 1 "Mouse" 15%float 7).
Proof.
  intros mouse this.
  split; [ | split].
  - apply Inventory_reduceStock_contract. vm_compute. reflexivity.
  - destruct (Inventory_reduceStock_contract this 1 11) as (_ & Hrefused & _).
    apply (Hrefused mouse); [vm_compute; reflexivity | simpl; lia].
  - destruct (Inventory_reduceStock_contract this 1 3) as (_ & _ & Haccepted).
    apply (Haccepted mouse);
      [vm_compute; reflexivity | unfold is_int, INT_MIN, INT_MAX; simpl; lia | simpl; lia].
Defined.

(** ** Listing after a change *)

Lemma values_insert (m : gmap Z Adv.Product) (id : Z) (p : Adv.Product) :
  (map_to_list (<[id := p]> m)).*2 ≡ₚ p :: (map_to_list (delete id m)).*2.
Proof.
  rewrite <- insert_delete_eq.
  rewrite map_to_list_insert by apply lookup_delete_eq. reflexivity.
Qed.

Lemma values_split (m : gmap Z Adv.Product) (id : Z) (q : Adv.Product) :
  m !! id = Some q ->
  (map_to_list m).*2 ≡ₚ q :: (map_to_list (delete id m)).*2.
Proof.
  intros Hq. rewrite <- (map_to_list_delete m id q Hq). reflexivity.
Qed.

Lemma other_ids (m : gmap Z Adv.Product) (id : Z) :
  keyed_by_id m ->
  Forall (fun x => Adv.getId x <> id) (map_to_list (delete id m)).*2.
Proof.
  intros Hm. apply Forall_forall. intros x Hx.
  apply list_elem_of_fmap in Hx as [[k y] [-> Hky]]. simpl.
  apply elem_of_map_to_list in Hky.
  apply lookup_delete_Some in Hky as [Hne Hk].
  rewrite (Hm k y Hk). congruence.
Qed.

Lemma filter_all {A : Type} (P : A -> Prop) `{forall x, Decision (P x)} (l : list A) :
  Forall P l -> filter P l = l.
Proof.
  induction 1 as [ | x l Hx _ IH]; [reflexivity |].
  rewrite filter_cons_True by exact Hx. now rewrite IH.
Qed.

Lemma filter_strongly_sorted {A : Type} (R : relation A) (P : A -> Prop)
      `{forall x, Decision (P x)} (l : list A) :
  StronglySorted R l -> StronglySorted R (filter P l).
Proof.
  induction 1 as [ | x l Hl IH Hx]; [constructor |].
  rewrite filter_cons. destruct (decide (P x)); [ | exact IH].
  constructor; [exact IH |].
  apply Forall_forall. intros y Hy. apply list_elem_of_filter in Hy as [_ Hy].
  rewrite Forall_forall in Hx. now apply Hx.
Qed.

Lemma listAll_spec (this : Adv.Inventory) :
  keyed_by_id (Adv.products this) ->
  StronglySorted lt_id (Adv.listAll this)
  /\ Adv.listAll this ≡ₚ (map_to_list (Adv.products this)).*2.
Proof.
  intros Hm. unfold Adv.listAll.
  apply (listAll_visiting_spec (Adv.products this)); [exact Hm |].
  unfold Adv.visits. reflexivity.
Qed.

(** A list that holds the stored products and is sorted by id is the listing. *)
Lemma listAll_characterized (this : Adv.Inventory) (l : list Adv.Product) :
  keyed_by_id (Adv.products this) ->
  StronglySorted le_id l ->
  l ≡ₚ (map_to_list (Adv.products this)).*2 ->
  l = Adv.listAll this.
Proof.
  intros Hm Hsorted Hperm.
  destruct (listAll_spec this Hm) as [Hsorted' Hperm'].
  apply strictly_sorted_unique; [ | exact Hsorted' | now rewrite Hperm, Hperm'].
  apply sorted_distinct_strict; [exact Hsorted |].
  rewrite Hperm, (keyed_ids_are_keys _ Hm). apply NoDup_fst_map_to_list.
Qed.

Lemma lt_id_le_id (l : list Adv.Product) :
  StronglySorted lt_id l -> StronglySorted le_id l.
Proof.
  induction 1 as [ | x l Hl IH Hx]; constructor; [exact IH |].
  eapply Forall_impl; [exact Hx |]. unfold lt_id, le_id. intros y Hy. lia.
Qed.

Lemma filter_other_ids (m : gmap Z Adv.Product) (id : Z) :
  keyed_by_id m ->
  filter (fun x => Adv.getId x <> id) (map_to_list m).*2
  ≡ₚ (map_to_list (delete id m)).*2.
Proof.
  intros Hm. destruct (m !! id) as [q | ] eqn:Hq.
  - rewrite (values_split m id q Hq).
    rewrite filter_cons_False by (rewrite (Hm id q Hq); tauto).
    rewrite filter_all; [reflexivity | now apply other_ids].
  - rewrite filter_all.
    + now rewrite delete_id.
    + rewrite <- (delete_id m id Hq) at 1. now apply other_ids.
Qed.

(** X8: for an inventory in which every product sits under its own id (as
    after any sequence of [addProduct] calls), the listing after
    [addProduct(p)] is the listing before without the product of the id of
    [p], with [p] put in at the place its id asks for; on the inventory
    nothing was added to, the listing is empty. *)
Theorem listAll_after_addProduct (p : Adv.Product) (this : Adv.Inventory) :
  keyed_by_id (Adv.products this) ->
  Adv.listAll (Adv.addProduct p this)
  = Adv.sort_insert Adv.by_id p
      (filter (fun x => Adv.getId x <> Adv.getId p) (Adv.listAll this))
  /\ Adv.listAll (Adv.mkInventory ∅) = [].
Proof.
  intros Hm. split; [ | reflexivity].
  destruct (listAll_spec this Hm) as [Hsorted Hperm].
  symmetry. apply listAll_characterized.
  - now apply keyed_by_id_addProduct.
  - apply sort_insert_by_id_sorted, lt_id_le_id, filter_strongly_sorted, Hsorted.
  - rewrite sort_insert_perm, Hperm, (filter_other_ids _ _ Hm).
    unfold Adv.addProduct. simpl. now rewrite values_insert.
Qed.

Lemma listAll_after_addProduct_witness :
  let mouse := Adv.mkProduct 1 "Mouse" 15%float 10 in
  let dear_mouse := Adv.mkProduct 1 "Mouse" 99%float 10 in
  let keyboard := Adv.mkProduct 2 "Keyboard" 25%float 5 in
  Adv.listAll (Adv.addProduct dear_mouse (filled [keyboard; mouse]))
  = [dear_mouse; keyboard].
Proof.
  intros mouse dear_mouse keyboard.
  etransitivity.
  - apply (listAll_after_addProduct dear_mouse (filled [keyboard; mouse])).
    apply keyed_by_id_filled.
  - vm_compute. reflexivity.
Defined.

Lemma keyed_by_id_replace (m : gmap Z Adv.Product) (id : Z) (p' : Adv.Product) :
  keyed_by_id m -> Adv.getId p' = id -> keyed_by_id (<[id := p']> m).
Proof.
  intros Hm Hid k q. destruct (decide (id = k)) as [<- | Hne].
  - rewrite lookup_insert_eq. now intros [= <-].
  - rewrite lookup_insert_ne by exact Hne. apply Hm.
Qed.

Lemma adv_reduceStock_same_id (qty : Z) (p : Adv.Product) :
  Adv.getId (snd (Adv.reduceStock qty p)) = Adv.getId p
  /\ Adv.getName (snd (Adv.reduceStock qty p)) = Adv.getName p
  /\ Adv.getPrice (snd (Adv.reduceStock qty p)) = Adv.getPrice p.
Proof.
  unfold Adv.reduceStock. destruct (qty <=? 0); [now repeat split |].
  destruct (qty >? Adv.getStock p); now repeat split.
Qed.

Lemma Inventory_reduceStock_keyed (id qty : Z) (this : Adv.Inventory) :
  keyed_by_id (Adv.products this) ->
  keyed_by_id (Adv.products (snd (Adv.Inventory_reduceStock id qty this))).
Proof.
  intros Hm. unfold Adv.Inventory_reduceStock.
  destruct (Adv.products this !! id) as [p | ] eqn:Hp; [ | exact Hm].
  pose proof (adv_reduceStock_same_id qty p) as [Hid _].
  destruct (Adv.reduceStock qty p) as [r p']. simpl in *.
  apply keyed_by_id_replace; [exact Hm |]. rewrite Hid. now apply Hm.
Qed.

(** X9: for an inventory in which every product sits under its own id, the
    listing after [reduceStock(id, qty)] is the listing before with
    [Product::reduceStock(qty)] applied to the product of that id and to no
    other: the same products in the same places, and the same listing when
    no product has that id or the product refuses. *)
Theorem listAll_after_reduceStock (this : Adv.Inventory) (id qty : Z) :
  keyed_by_id (Adv.products this) ->
  Adv.listAll (snd (Adv.Inventory_reduceStock id qty this))
  = (fun x => if Adv.getId x =? id then snd (Adv.reduceStock qty x) else x)
      <$> Adv.listAll this.
Proof.
  intros Hm.
  set (f := fun x => if Adv.getId x =? id then snd (Adv.reduceStock qty x) else x).
  assert (Hf : forall x, Adv.getId (f x) = Adv.getId x).
  { intros x. unfold f. destruct (Adv.getId x =? id); [ | reflexivity].
    apply adv_reduceStock_same_id. }
  destruct (listAll_spec this Hm) as [Hsorted Hperm].
  symmetry. apply listAll_characterized.
  - now apply Inventory_reduceStock_keyed.
  - apply lt_id_le_id.
    apply (StronglySorted_fmap f lt_id lt_id); [ | exact Hsorted].
    intros x y. unfold lt_id. now rewrite !Hf.
  - rewrite Hperm. unfold Adv.Inventory_reduceStock.
    assert (Hrest : f <$> (map_to_list (delete id (Adv.products this))).*2
                    = (map_to_list (delete id (Adv.products this))).*2).
    { rewrite <- (list_fmap_id (map_to_list (delete id (Adv.products this))).*2) at 2.
      apply Forall_fmap_ext. eapply Forall_impl; [apply other_ids, Hm |].
      intros x Hx. unfold f. simpl.
      destruct (Z.eqb_spec (Adv.getId x) id); [contradiction | reflexivity]. }
    destruct (Adv.products this !! id) as [p | ] eqn:Hp.
    + assert (Hfp : f p = snd (Adv.reduceStock qty p)).
      { unfold f. rewrite (Hm id p Hp), Z.eqb_refl. reflexivity. }
      destruct (Adv.reduceStock qty p) as [r p'] eqn:Hred. simpl in *.
      rewrite values_insert, (values_split _ id p Hp), fmap_cons, Hrest, Hfp.
      reflexivity.
    + simpl. rewrite <- (delete_id _ id Hp). now rewrite Hrest.
Qed.

Lemma listAll_after_reduceStock_witness :
  let mouse := Adv.mkProduct 1 "Mouse" 15%float 10 in
  let keyboard := Adv.mkProduct 2 "Keyboard" 25%float 5 in
  Adv.listAll (snd (Adv.Inventory_reduceStock 2 5 (filled [keyboard; mouse])))
  = [mouse; Adv.mkProduct 2 "Keyboard" 25%float 0].
Proof.
  intros mouse keyboard.
  etransitivity.
  - apply (listAll_after_reduceStock (filled [keyboard; mouse]) 2 5).
    apply keyed_by_id_filled.
  - vm_compute. reflexivity.
Defined.

(** ** Stock accounting in the inventory *)

Lemma adv_reduceStock_inv (q : Z) (p p' : Adv.Product) (r : outcome bool) :
  Adv.reduceStock q p = (r, p') ->
  (r = Returns true /\ 0 < q <= Adv.getStock p
   /\ p' = Adv.mkProduct (Adv.getId p) (Adv.getName p) (Adv.getPrice p)
                         (wrap_int (Adv.getStock p - q)))
  \/ (r = Returns false /\ p' = p).
Proof.
  unfold Adv.reduceStock.
  destruct (Z.leb_spec q 0); [intros [= <- <-]; now right |].
  destruct (Z.gtb_spec q (Adv.getStock p)); intros [= <- <-]; [now right |].
  left. repeat split; lia.
Qed.

Lemma Inventory_reduceStock_step (this this' : Adv.Inventory) (id id0 qty : Z)
      (p : Adv.Product) (r : outcome bool) :
  Adv.products this !! id = Some p ->
  0 <= Adv.getStock p <= INT_MAX ->
  Adv.Inventory_reduceStock id0 qty this = (r, this') ->
  exists p' : Adv.Product,
    Adv.products this' !! id = Some p'
    /\ Adv.getId p' = Adv.getId p /\ Adv.getName p' = Adv.getName p
    /\ Adv.getPrice p' = Adv.getPrice p
    /\ 0 <= Adv.getStock p' <= INT_MAX
    /\ Adv.getStock p'
       = Adv.getStock p
         - units_of id (match r with Returns true => [(id0, qty)] | _ => [] end)
    /\ 0 <= units_of id (match r with Returns true => [(id0, qty)] | _ => [] end).
Proof.
  intros Hp Hs. unfold Adv.Inventory_reduceStock.
  destruct (Adv.products this !! id0) as [p0 | ] eqn:Hp0.
  - destruct (Adv.reduceStock qty p0) as [r0 p0'] eqn:Hred. intros [= <- <-]. simpl.
    apply adv_reduceStock_inv in Hred as [(-> & Hq & ->) | (-> & ->)].
    + unfold units_of. simpl. destruct (Z.eqb_spec id0 id) as [-> | Hne].
      * rewrite lookup_insert_eq. assert (p0 = p) as -> by congruence.
        rewrite wrap_int_id by (unfold is_int, INT_MIN, INT_MAX in *; lia).
        eexists. split; [reflexivity |]. simpl. repeat split; lia.
      * rewrite lookup_insert_ne by exact Hne.
        exists p. repeat split; try assumption; lia.
    + unfold units_of. simpl. destruct (decide (id0 = id)) as [-> | Hne].
      * rewrite lookup_insert_eq. assert (p0 = p) as -> by congruence.
        exists p. repeat split; try assumption; lia.
      * rewrite lookup_insert_ne by exact Hne.
        exists p. repeat split; try assumption; lia.
  - intros [= <- <-]. unfold units_of. simpl.
    exists p. repeat split; try assumption; lia.
Qed.

Lemma units_of_cons (id id0 qty : Z) (calls : list (Z * Z)) :
  units_of id ((id0, qty) :: calls) = units_of id [(id0, qty)] + units_of id calls.
Proof. unfold units_of. simpl. destruct (id0 =? id); lia. Qed.

(** X10: whatever series of [reduceStock(id, qty)] calls the inventory
    receives, a product that starts with a stock that is not negative ends
    with that stock less the units of the calls on its id that returned
    [true], still not negative, with its id, name and price as they were:
    the calls that succeed never take more than there was. *)
Theorem reduce_calls_account (calls : list (Z * Z)) :
  forall (this : Adv.Inventory) (id : Z) (p : Adv.Product),
    Adv.products this !! id = Some p ->
    0 <= Adv.getStock p <= INT_MAX ->
    exists p' : Adv.Product,
      Adv.products (snd (reduce_calls calls this)) !! id = Some p'
      /\ Adv.getId p' = Adv.getId p /\ Adv.getName p' = Adv.getName p
      /\ Adv.getPrice p' = Adv.getPrice p
      /\ Adv.getStock p' = Adv.getStock p - units_of id (fst (reduce_calls calls this))
      /\ 0 <= Adv.getStock p'
      /\ 0 <= units_of id (fst (reduce_calls calls this)) <= Adv.getStock p.
Proof.
  induction calls as [ | [id0 qty] rest IH]; intros this id p Hp Hs; simpl.
  - exists p. unfold units_of. simpl. repeat split; try assumption; lia.
  - destruct (Adv.Inventory_reduceStock id0 qty this) as [r this'] eqn:Hstep.
    destruct (Inventory_reduceStock_step _ _ id _ _ _ _ Hp Hs Hstep)
      as (p1 & Hp1 & Hid1 & Hname1 & Hprice1 & Hs1 & Hstock1 & Hunits1).
    destruct (IH this' id p1 Hp1 Hs1)
      as (p' & Hp' & Hid & Hname & Hprice & Hstock & Hpos & Hunits).
    destruct (reduce_calls rest this') as [accepted final]. simpl in *.
    exists p'. split; [exact Hp' |].
    assert (Hsum : units_of id (match r with
                               | Returns true => (id0, qty) :: accepted
                               | _ => accepted
                               end)
                   = units_of id (match r with
                                  | Returns true => [(id0, qty)]
                                  | _ => []
                                  end) + units_of id accepted).
    { destruct r as [[ | ] | e]; [apply units_of_cons | reflexivity | reflexivity]. }
    rewrite Hsum. repeat split; try congruence; lia.
Qed.

Lemma reduce_calls_account_witness :
  let mouse := Adv.mkProduct 1 "Mouse" 15%float 10 in
  let keyboard := Adv.mkProduct 2 "Keyboard" 25%float 5 in
  let calls := [(1, 4); (2, 6); (1, 7); (1, 6); (3, 1); (1, 0)] in
  exists p',
    Adv.products (snd (reduce_calls calls (filled [mouse; keyboard]))) !! 1 = Some p'
    /\ Adv.getStock p' = 0.
Proof.
  intros mouse keyboard calls.
  destruct (reduce_calls_account calls (filled [mouse; keyboard]) 1 mouse)
    as (p' & Hp' & _ & _ & _ & Hstock & _).
  - vm_compute. reflexivity.
  - unfold INT_MAX. simpl. lia.
  - exists p'. split; [exact Hp' |].
    rewrite Hstock. vm_compute. reflexivity.
Defined.

(** ** Orders of the advanced program *)

(** X11: orders constructed one after the other while the counter stays
    an [int] get the next ids in turn, the counter ends at the last id, and
    each order holds the items it was given and, as its amount, their
    total. *)
Theorem make_orders_ids (carts : list (list Adv.CartItem)) :
  forall n : Z,
    0 <= n ->
    n + Z.of_nat (length carts) <= INT_MAX ->
    Adv.orderId <$> fst (make_orders carts n) = seqZ (n + 1) (Z.of_nat (length carts))
    /\ snd (make_orders carts n) = n + Z.of_nat (length carts)
    /\ Adv.items <$> fst (make_orders carts n) = carts
    /\ Forall (fun o => Adv.amount o = Adv.total (Adv.mkCart (Adv.items o)))
              (fst (make_orders carts n)).
Proof.
  induction carts as [ | its rest IH]; intros n Hn Hmax.
  - simpl. repeat split; [lia | constructor].
  - simpl length in *. simpl make_orders. unfold Adv.new_Order.
    rewrite wrap_int_id by (unfold is_int, INT_MIN, INT_MAX in *; lia).
    destruct (IH (n + 1)) as (Hids & Hfinal & Hitems & Hamounts); [lia | lia |].
    destruct (make_orders rest (n + 1)) as [os final]. cbn [fst snd] in *.
    split; [ | split; [lia | split]].
    + rewrite fmap_cons, Hids. cbn [Adv.orderId].
      rewrite (seqZ_cons (n + 1)) by lia. f_equal. f_equal; lia.
    + rewrite fmap_cons, Hitems. reflexivity.
    + constructor; [reflexivity | exact Hamounts].
Qed.

Lemma make_orders_ids_witness :
  let two_mice := [Adv.mkCartItem (Adv.mkProduct 1 "Mouse" 15%float 10) 2] in
  Adv.orderId <$> fst (make_orders [two_mice; []; two_mice] 0) = [1; 2; 3].
Proof.
  intros two_mice.
  etransitivity.
  - apply (make_orders_ids [two_mice; []; two_mice] 0); unfold INT_MAX; simpl; lia.
  - reflexivity.
Defined.

(** ** The cart and the menu of the basic program *)

Lemma basic_total_loop_app (l : list Basic.CartItem) (ci : Basic.CartItem) :
  forall t : double,
    Basic.total_loop t (l ++ [ci])
    = PrimFloat.add (Basic.total_loop t l) (Basic.subtotal ci).
Proof.
  induction l as [ | c l IH]; simpl; intros t; [reflexivity | apply IH].
Qed.

(** X12: the cart of the basic program: [addItem(p, q)] raises the total by
    the price of [p] times [q] in [double] arithmetic and leaves a cart
    that is not empty; adding the same product again makes a second item
    rather than raising the quantity of the first; [clear()] leaves an
    empty cart of total 0. *)
Theorem basic_cart_laws (p : Basic.Product) (q : Z) (this : Basic.ShoppingCart) :
  Basic.total (Basic.addItem p q this)
  = PrimFloat.add (Basic.total this)
                  (PrimFloat.mul (Basic.getPrice p) (double_of_int q))
  /\ Basic.empty (Basic.addItem p q this) = false
  /\ Basic.getItems (Basic.addItem p q (Basic.addItem p q this))
     = Basic.getItems this ++ [Basic.mkCartItem p q; Basic.mkCartItem p q]
  /\ Basic.empty (Basic.clear this) = true
  /\ Basic.total (Basic.clear this) = 0%float.
Proof.
  split; [ | split; [ | split; [ | split]]]; try reflexivity.
  - unfold Basic.total, Basic.addItem. simpl. apply basic_total_loop_app.
  - unfold Basic.empty, Basic.addItem. simpl. now destruct (Basic.getItems this).
  - unfold Basic.addItem. simpl. now rewrite <- app_assoc.
Qed.



Lemma add_loop_refused (id q : Z) (ps : list Basic.Product) (c : Basic.ShoppingCart) :
  Forall (fun p => Basic.getId p = id -> q <= 0 \/ q > Basic.getStock p) ps ->
  Basic.add_loop id q ps c = (ps, c).
Proof.
  induction 1 as [ | p ps Hp _ IH]; simpl; [reflexivity |].
  destruct (Z.eqb_spec (Basic.getId p) id) as [Hid | Hid].
  - rewrite basic_reduceStock_refused by auto. now rewrite IH.
  - now rewrite IH.
Qed.

Lemma add_loop_skip (id q : Z) (l rest : list Basic.Product) :
  Forall (fun x => Basic.getId x <> id) l ->
  forall c : Basic.ShoppingCart,
    Basic.add_loop id q (l ++ rest) c
    = (l ++ fst (Basic.add_loop id q rest c), snd (Basic.add_loop id q rest c)).
Proof.
  induction 1 as [ | x l Hx _ IH]; intros c; simpl.
  - now destruct (Basic.add_loop id q rest c).
  - destruct (Z.eqb_spec (Basic.getId x) id); [contradiction |].
    rewrite IH. reflexivity.
Qed.

(** X14: choice 2 of the menu.  When every product of the given id refuses
    the quantity (it is not positive, or exceeds the stock), and so also
    when no product has that id, products and cart stay as they were.  When
    exactly one product has the id and its stock covers the quantity, that
    product loses the quantity, the others stay, and the cart gains one
    item that holds the product as it is after the reduction. *)
Theorem add_to_cart_effect (id q : Z) (c : Basic.ShoppingCart) :
  (forall ps : list Basic.Product,
      Forall (fun p => Basic.getId p = id -> q <= 0 \/ q > Basic.getStock p) ps ->
      Basic.add_loop id q ps c = (ps, c))
  /\ (forall (l1 l2 : list Basic.Product) (p : Basic.Product),
        Forall (fun x => Basic.getId x <> id) l1 ->
        Forall (fun x => Basic.getId x <> id) l2 ->
        Basic.getId p = id ->
        is_int (Basic.getStock p) ->
        0 < q <= Basic.getStock p ->
        Basic.add_loop id q (l1 ++ p :: l2) c
        = (l1 ++ Basic.mkProduct id (Basic.getName p) (Basic.getPrice p)
                                 (Basic.getStock p - q) :: l2,
           Basic.addItem (Basic.mkProduct id (Basic.getName p) (Basic.getPrice p)
                                          (Basic.getStock p - q)) q c)).
Proof.
  split; [intros ps; apply add_loop_refused |].
  intros l1 l2 p Hl1 Hl2 Hid Hs Hq.
  rewrite add_loop_skip by exact Hl1. simpl.
  rewrite Hid, Z.eqb_refl, basic_reduceStock_ok by assumption.
  rewrite add_loop_refused; [rewrite Hid; reflexivity |].
  eapply Forall_impl; [exact Hl2 |]. intros x Hx Hx'. contradiction.
Qed.

Lemma add_to_cart_effect_witness :
  let book := Basic.mkProduct 1 "Book" 10.5%float 10 in
  let pen := Basic.mkProduct 2 "Pen" 2.5%float 20 in
  Basic.add_loop 2 21 [book; pen] (Basic.mkCart []) = ([book; pen], Basic.mkCart [])
  /\ Basic.add_loop 2 20 [book; pen] (Basic.mkCart [])
     = ([book; Basic.mkProduct 2 "Pen" 2.5%float 0],
        Basic.mkCart [Basic.mkCartItem (Basic.mkProduct 2 "Pen" 2.5%float 0) 20]).
Proof.
  intros book pen. split.
  - apply add_to_cart_effect.
    repeat (apply Forall_cons; split; [simpl; lia | ]). apply Forall_nil_2.
  - destruct (add_to_cart_effect 2 20 (Basic.mkCart [])) as [_ H].
    apply (H [book] [] pen).
    + apply Forall_cons. split; [simpl; lia | apply Forall_nil_2].
    + apply Forall_nil_2.
    + reflexivity.
    + unfold is_int, INT_MIN, INT_MAX. simpl. lia.
    + simpl. lia.
Defined.

(** ** Runs of the basic program *)

Lemma cart_units_app (l : list Basic.CartItem) (ci : Basic.CartItem) :
  cart_units (l ++ [ci]) = cart_units l + Basic.quantity ci.
Proof.
  unfold cart_units. induction l as [ | c l IH]; simpl; [lia | rewrite IH; lia].
Qed.

Lemma add_loop_units (id q : Z) (ps : list Basic.Product) :
  forall (c : Basic.ShoppingCart) ps' c',
    Basic.add_loop id q ps c = (ps', c') ->
    stocks_ok ps ->
    stock_sum ps' + cart_units (Basic.getItems c')
    = stock_sum ps + cart_units (Basic.getItems c)
    /\ Forall2 same_but_stock ps ps'.
Proof.
  induction ps as [ | p rest IH]; simpl; intros c ps' c' Hrun Hok.
  - inversion Hrun; subst. split; [reflexivity | constructor].
  - inversion Hok as [ | ? ? Hp Hrest_ok]; subst.
    assert (Hsame : same_but_stock p p) by (unfold same_but_stock; repeat split; lia).
    destruct (Basic.getId p =? id).
    + destruct (Basic.reduceStock q p) as [r p1] eqn:Hred.
      apply basic_reduceStock_inv in Hred as [(-> & Hq & ->) | (-> & ->)].
      * destruct (Basic.add_loop id q rest _) as [rest' c1] eqn:Hrest.
        inversion Hrun; subst.
        destruct (IH _ _ _ Hrest Hrest_ok) as [Hunits Hcat].
        assert (Hw : wrap_int (Basic.getStock p - q) = Basic.getStock p - q).
        { apply wrap_int_id. unfold is_int, INT_MIN, INT_MAX in *. lia. }
        unfold Basic.addItem in Hunits. simpl in Hunits.
        rewrite cart_units_app in Hunits. simpl in Hunits.
        split; [simpl; rewrite Hw; lia |].
        constructor; [ | exact Hcat].
        unfold same_but_stock. simpl. rewrite Hw. repeat split; lia.
      * destruct (Basic.add_loop id q rest c) as [rest' c1] eqn:Hrest.
        inversion Hrun; subst.
        destruct (IH _ _ _ Hrest Hrest_ok) as [Hunits Hcat].
        split; [simpl; lia | now constructor].
    + destruct (Basic.add_loop id q rest c) as [rest' c1] eqn:Hrest.
      inversion Hrun; subst.
      destruct (IH _ _ _ Hrest Hrest_ok) as [Hunits Hcat].
      split; [simpl; lia | now constructor].
Qed.

Lemma same_but_stock_refl (ps : list Basic.Product) :
  stocks_ok ps -> Forall2 same_but_stock ps ps.
Proof.
  induction 1 as [ | p ps Hp _ IH]; constructor; [ | exact IH].
  unfold same_but_stock. repeat split; lia.
Qed.

Lemma same_but_stock_trans (l1 l2 l3 : list Basic.Product) :
  Forall2 same_but_stock l1 l2 -> Forall2 same_but_stock l2 l3 ->
  Forall2 same_but_stock l1 l3.
Proof.
  intros H12. revert l3.
  induction H12 as [ | x y l1 l2 Hxy _ IH]; intros l3 H23; inversion H23; subst;
    constructor.
  - unfold same_but_stock in *. repeat split; try lia; intuition congruence.
  - now apply IH.
Qed.

Section BasicRuns.

Variable select : Z -> Payment.

Lemma iteration_units (c : Basic.choice) (st st' : Basic.state) (o : option Basic.Order) :
  stocks_ok (Basic.products st) ->
  Basic.iteration select c st = Some (st', o) ->
  stocks_ok (Basic.products st')
  /\ Forall2 same_but_stock (Basic.products st) (Basic.products st')
  /\ stock_sum (Basic.products st') + cart_units (Basic.getItems (Basic.cart st'))
     + match o with
       | Some x => cart_units (Basic.Order_items x)
       | None => 0
       end
     = stock_sum (Basic.products st) + cart_units (Basic.getItems (Basic.cart st)).
Proof.
  intros Hok. pose proof (same_but_stock_refl _ Hok) as Hrefl.
  destruct c as [ | id q | | pm | ]; simpl.
  - intros [= <- <-]. repeat split; try assumption; lia.
  - destruct (Basic.add_loop id q _ _) as [ps c'] eqn:Hadd.
    intros [= <- <-]. simpl.
    destruct (add_loop_units _ _ _ _ _ _ Hadd Hok) as [Hunits Hcat].
    destruct (add_loop_budget _ _ _ _ _ _ Hadd Hok) as [Hok' _].
    repeat split; try assumption; lia.
  - intros [= <- <-]. repeat split; try assumption; lia.
  - unfold Basic.checkout.
    destruct (Basic.empty (Basic.cart st));
      [intros [= <- <-]; repeat split; try assumption; lia |].
    destruct (pay (select pm) _); simpl; intros [= <- <-]; simpl;
      repeat split; try assumption; unfold cart_units; simpl; lia.
  - discriminate.
Qed.

Lemma main_loop_units (inputs : list Basic.choice) :
  forall st : Basic.state,
    stocks_ok (Basic.products st) ->
    stocks_ok (Basic.products (fst (Basic.main_loop select inputs st)))
    /\ Forall2 same_but_stock (Basic.products st)
               (Basic.products (fst (Basic.main_loop select inputs st)))
    /\ stock_sum (Basic.products (fst (Basic.main_loop select inputs st)))
       + cart_units (Basic.getItems (Basic.cart (fst (Basic.main_loop select inputs st))))
       + ordered_units (snd (Basic.main_loop select inputs st))
       = stock_sum (Basic.products st) + cart_units (Basic.getItems (Basic.cart st)).
Proof.
  induction inputs as [ | c rest IH]; simpl; intros st Hok.
  - split; [exact Hok | split; [now apply same_but_stock_refl | simpl; lia]].
  - destruct (Basic.iteration select c st) as [[st' o] | ] eqn:Hit.
    + destruct (iteration_units _ _ _ _ Hok Hit) as (Hok' & Hcat & Hunits).
      destruct (IH st' Hok') as (Hok'' & Hcat' & Hunits').
      destruct (Basic.main_loop select rest st') as [st'' os]. simpl in *.
      split; [exact Hok'' | split; [eapply same_but_stock_trans; eassumption |]].
      destruct o as [x | ]; simpl; lia.
    + split; [exact Hok | split; [now apply same_but_stock_refl | simpl; lia]].
Qed.

End BasicRuns.

(** X15: in every run of the basic program, the units on the shelf, in the
    cart and in the orders made add up to the 35 units [main] starts with:
    no unit is lost or made, also not by a refused checkout. *)
Theorem units_conserved (select : Z -> Payment) (inputs : list Basic.choice) :
  stock_sum (Basic.products (fst (Basic.main_loop select inputs Basic.initial)))
  + cart_units
      (Basic.getItems (Basic.cart (fst (Basic.main_loop select inputs Basic.initial))))
  + ordered_units (snd (Basic.main_loop select inputs Basic.initial))
  = 35.
Proof.
  destruct (main_loop_units select inputs Basic.initial) as (_ & _ & Hunits).
  - apply initial_within_budget.
  - rewrite Hunits. reflexivity.
Qed.

(** X16: in every run of the basic program the products stay the ones
    [main] starts with, in the same order, with the same ids, names and
    prices; each stock only goes down and never below 0. *)
Theorem catalog_keeps_but_stock (select : Z -> Payment) (inputs : list Basic.choice) :
  Forall2 same_but_stock
          (Basic.products Basic.initial)
          (Basic.products (fst (Basic.main_loop select inputs Basic.initial))).
Proof.
  apply main_loop_units. apply initial_within_budget.
Qed.

Lemma main_loop_counter (select : Z -> Payment) (inputs : list Basic.choice) :
  forall st : Basic.state,
    within_budget st ->
    Basic.orderCounter (fst (Basic.main_loop select inputs st))
    = Basic.orderCounter st
      + Z.of_nat (length (snd (Basic.main_loop select inputs st))).
Proof.
  induction inputs as [ | c rest IH]; simpl; intros st Hst; [lia |].
  destruct (Basic.iteration select c st) as [[st' o] | ] eqn:Hit; [ | simpl; lia].
  destruct (iteration_budget _ _ _ _ _ Hst Hit) as [Hst' Ho].
  specialize (IH st' Hst').
  destruct (Basic.main_loop select rest st') as [st'' os]. simpl in *.
  destruct o as [x | ]; simpl length; lia.
Qed.

(** X17: in every run of the basic program the static counter is the number
    of orders made so far, and that number is at most 35. *)
Theorem counter_counts_orders (select : Z -> Payment) (inputs : list Basic.choice) :
  Basic.orderCounter (fst (Basic.main_loop select inputs Basic.initial))
  = Z.of_nat (length (snd (Basic.main_loop select inputs Basic.initial)))
  /\ (length (snd (Basic.main_loop select inputs Basic.initial)) <= 35)%nat.
Proof.
  pose proof (main_loop_counter select inputs _ initial_within_budget) as Hc.
  pose proof (main_loop_counter_bound select inputs _ initial_within_budget)
    as (Hok & _ & Hle).
  pose proof (stock_sum_nonneg _ Hok) as Hs.
  pose proof (pending_range
                (Basic.cart (fst (Basic.main_loop select inputs Basic.initial)))) as Hp.
  simpl in Hc. split; lia.
Qed.

Lemma main_loop_orders (select : Z -> Payment) (inputs : list Basic.choice) :
  forall st : Basic.state,
    positive_quantities (Basic.getItems (Basic.cart st)) ->
    Forall well_formed_order (snd (Basic.main_loop select inputs st)).
Proof.
  induction inputs as [ | c rest IH]; simpl; intros st Hst; [constructor |].
  destruct (Basic.iteration select c st) as [[st' o] | ] eqn:Hit; [ | constructor].
  specialize (IH st' (iteration_quantities _ _ _ _ _ Hst Hit)).
  destruct (Basic.main_loop select rest st') as [st'' os]. simpl in *.
  destruct o as [x | ]; [ | exact IH].
  constructor; [ | exact IH].
  destruct c as [ | id q | | pm | ]; simpl in Hit; try discriminate.
  - destruct (Basic.add_loop id q _ _). discriminate.
  - unfold Basic.checkout in Hit.
    destruct (Basic.empty (Basic.cart st)) eqn:He; [discriminate |].
    destruct (pay (select pm) _); [ | discriminate].
    simpl in Hit. injection Hit as <- <-.
    unfold well_formed_order. simpl. repeat split; [ | exact Hst].
    intros Hnil. apply basic_empty_iff in Hnil. congruence.
Qed.

(** X18: every order made in a run of the basic program holds at least one
    item, only items of quantity > 0, and as its amount the total of its
    items. *)
Theorem orders_well_formed (select : Z -> Payment) (inputs : list Basic.choice) :
  Forall well_formed_order (snd (Basic.main_loop select inputs Basic.initial)).
Proof.
  apply main_loop_orders. constructor.
Qed.

(** X19: what is typed after the choice that leaves the menu is not
    processed, and showing the products or viewing the cart anywhere in
    between changes neither the final state nor the orders made. *)
Theorem exit_stops_and_views_do_nothing
        (select : Z -> Payment) (before after : list Basic.choice) (st : Basic.state) :
  Basic.main_loop select (before ++ Basic.Exit :: after) st
  = Basic.main_loop select before st
  /\ Basic.main_loop select (before ++ Basic.ShowProducts :: after) st
     = Basic.main_loop select (before ++ after) st
  /\ Basic.main_loop select (before ++ Basic.ViewCart :: after) st
     = Basic.main_loop select (before ++ after) st.
Proof.
  revert st. induction before as [ | c rest IH]; intros st; simpl.
  - repeat split; now destruct (Basic.main_loop select after st).
  - destruct (Basic.iteration select c st) as [[st' o] | ]; [ | now repeat split].
    destruct (IH st') as (-> & -> & ->). now repeat split.
Qed.
